(** * tcping: the probe-and-statistics engine

    A shallow embedding of the session tracker of [statsprinter.go]
    (the [tcping] struct, [handleConnSuccess], [handleConnError],
    [calcLongestUptime], [calcLongestDowntime], [calcMinAvgMaxRttTime],
    [printStats], [resolveHostname], [retryResolveHostname], [tcpProbe] and
    the loss percentage of [printStatistics]), followed by the properties
    of the specification that it satisfies, and those it does not.

    Conventions.
    - [time.Time] is a count of nanoseconds since Go's zero [Time]; the zero
      value is [0].  [Time.Sub] saturates at the ends of [int64], as the
      [time] package does.
    - [time.Duration] is an [int64]; [+=] wraps around.
    - [uint] is 64 bits wide; [++] and [+] wrap around.
    - [float32] is IEEE 754 binary32, through the parameterised
      specification of the Standard Library ([prec = 24], [emax = 128]).
    - Printer calls are recorded as a list of events, in emission order.
    - [os.Exit] and a run-time panic end the computation ([Exited],
      [Panicked]). *)

From Stdlib Require Import ZArith List Bool String Lia.
From Stdlib Require Import Floats.SpecFloat.
Import ListNotations.

Local Open Scope Z_scope.

(** ** Machine integers *)

Definition uint_modulus : Z := 2 ^ 64.

(** [x++] and [x + y] on Go's [uint]. *)
Definition uint_add (x y : Z) : Z := (x + y) mod uint_modulus.
Definition uint_inc (x : Z) : Z := uint_add x 1.

(** ** time.Duration and time.Time *)

Definition Duration := Z.
Definition Time := Z.

Definition minDuration : Duration := - 2 ^ 63.
Definition maxDurationValue : Duration := 2 ^ 63 - 1.

(** [d1 + d2] on [int64]. *)
Definition duration_add (x y : Duration) : Duration :=
  (x + y + 2 ^ 63) mod 2 ^ 64 - 2 ^ 63.

Definition time_zero : Time := 0.
Definition IsZero (t : Time) : bool := t =? 0.

(** [t.Sub(u)]: the difference, or the nearest representable duration. *)
Definition time_Sub (t u : Time) : Duration :=
  if t - u <? minDuration then minDuration
  else if maxDurationValue <? t - u then maxDurationValue
  else t - u.

Definition time_Add (t : Time) (d : Duration) : Time := t + d.

(** ** float32 *)

Definition float32 := spec_float.
Definition prec32 : Z := 24.
Definition emax32 : Z := 128.

Definition f32_zero : float32 := S754_zero false.
Definition f32_of_Z (n : Z) : float32 := binary_normalize prec32 emax32 n 0 false.
Definition f32_add : float32 -> float32 -> float32 := SFadd prec32 emax32.
Definition f32_mul : float32 -> float32 -> float32 := SFmul prec32 emax32.
Definition f32_div : float32 -> float32 -> float32 := SFdiv prec32 emax32.
Definition f32_ltb : float32 -> float32 -> bool := SFltb.
Definition f32_leb : float32 -> float32 -> bool := SFleb.
Definition f32_isNaN (x : float32) : bool :=
  match x with S754_nan => true | _ => false end.

(** ** netip.Addr

    The zero [Addr], an IPv4 address (32 bits) or an IPv6 address (128
    bits).  Zones are left out. *)

Inductive Addr : Type :=
| AddrZero
| Addr4 (a : N)
| Addr6 (a : N).

Definition Addr_eqb (x y : Addr) : bool :=
  match x, y with
  | AddrZero, AddrZero => true
  | Addr4 a, Addr4 b => N.eqb a b
  | Addr6 a, Addr6 b => N.eqb a b
  | _, _ => false
  end.

Definition Is4 (ip : Addr) : bool :=
  match ip with Addr4 _ => true | _ => false end.

(** [Is6] is true of the IPv4-mapped addresses too. *)
Definition Is6 (ip : Addr) : bool :=
  match ip with Addr6 _ => true | _ => false end.

(** [::ffff:0:0/96] *)
Definition Is4In6 (ip : Addr) : bool :=
  match ip with
  | Addr6 a => N.eqb (N.shiftr a 32) 65535
  | _ => false
  end.

Definition Unmap (ip : Addr) : Addr :=
  if Is4In6 ip then
    match ip with Addr6 a => Addr4 (N.land a 4294967295) | _ => ip end
  else ip.

(** ** The structs *)

Record longestTime : Type := mkLongestTime {
  lt_start : Time;
  lt_end : Time;
  lt_duration : Duration
}.

Record rttResult : Type := mkRttResult {
  rtt_min : float32;
  rtt_max : float32;
  rtt_average : float32;
  rtt_hasResults : bool
}.

Record hostnameChange : Type := mkHostnameChange {
  hc_Addr : Addr;
  hc_When : Time
}.

Record userInputT : Type := mkUserInput {
  ip : Addr;
  hostname : string;
  networkInterface_use : bool;
  retryHostnameLookupAfter : Z;
  probesBeforeQuit : Z;
  timeout : Duration;
  intervalBetweenProbes : Duration;
  port : Z;
  useIPv4 : bool;
  useIPv6 : bool;
  shouldRetryResolve : bool;
  showFailuresOnly : bool;
  showSourceAddress : bool
}.

Record tcping : Type := mkTcping {
  startTime : Time;
  endTime : Time;
  startOfUptime : Time;
  startOfDowntime : Time;
  lastSuccessfulProbe : Time;
  lastUnsuccessfulProbe : Time;
  longestUptime : longestTime;
  longestDowntime : longestTime;
  rtt : list float32;
  hostnameChanges : list hostnameChange;
  userInput : userInputT;
  ongoingSuccessfulProbes : Z;
  ongoingUnsuccessfulProbes : Z;
  totalDowntime : Duration;
  totalUptime : Duration;
  totalSuccessfulProbes : Z;
  totalUnsuccessfulProbes : Z;
  retriedHostnameLookups : Z;
  rttResults : rttResult;
  destWasDown : bool;
  destIsIP : bool
}.

(** Go's zero values. *)
Definition zero_longestTime : longestTime := mkLongestTime time_zero time_zero 0.
Definition zero_rttResult : rttResult := mkRttResult f32_zero f32_zero f32_zero false.

(** The tracker as [processUserInput] leaves it: the fields that
    [setGenericArgs] assigns are given, every other one has its zero value. *)
Definition new_tcping (ui : userInputT) (start when : Time) (isIP : bool) : tcping :=
  mkTcping start time_zero time_zero time_zero time_zero time_zero
    zero_longestTime zero_longestTime [] [mkHostnameChange (ip ui) when] ui
    0 0 0 0 0 0 0 zero_rttResult false isIP.

(** *** Field assignments *)

Definition set_ip (v : Addr) (u : userInputT) : userInputT :=
  mkUserInput v (hostname u) (networkInterface_use u) (retryHostnameLookupAfter u)
    (probesBeforeQuit u) (timeout u) (intervalBetweenProbes u) (port u)
    (useIPv4 u) (useIPv6 u) (shouldRetryResolve u) (showFailuresOnly u)
    (showSourceAddress u).

Definition set_endTime (v : Time) (t : tcping) : tcping :=
  mkTcping (startTime t) v (startOfUptime t) (startOfDowntime t)
    (lastSuccessfulProbe t) (lastUnsuccessfulProbe t) (longestUptime t)
    (longestDowntime t) (rtt t) (hostnameChanges t) (userInput t)
    (ongoingSuccessfulProbes t) (ongoingUnsuccessfulProbes t) (totalDowntime t)
    (totalUptime t) (totalSuccessfulProbes t) (totalUnsuccessfulProbes t)
    (retriedHostnameLookups t) (rttResults t) (destWasDown t) (destIsIP t).

Definition set_startOfUptime (v : Time) (t : tcping) : tcping :=
  mkTcping (startTime t) (endTime t) v (startOfDowntime t)
    (lastSuccessfulProbe t) (lastUnsuccessfulProbe t) (longestUptime t)
    (longestDowntime t) (rtt t) (hostnameChanges t) (userInput t)
    (ongoingSuccessfulProbes t) (ongoingUnsuccessfulProbes t) (totalDowntime t)
    (totalUptime t) (totalSuccessfulProbes t) (totalUnsuccessfulProbes t)
    (retriedHostnameLookups t) (rttResults t) (destWasDown t) (destIsIP t).

Definition set_startOfDowntime (v : Time) (t : tcping) : tcping :=
  mkTcping (startTime t) (endTime t) (startOfUptime t) v
    (lastSuccessfulProbe t) (lastUnsuccessfulProbe t) (longestUptime t)
    (longestDowntime t) (rtt t) (hostnameChanges t) (userInput t)
    (ongoingSuccessfulProbes t) (ongoingUnsuccessfulProbes t) (totalDowntime t)
    (totalUptime t) (totalSuccessfulProbes t) (totalUnsuccessfulProbes t)
    (retriedHostnameLookups t) (rttResults t) (destWasDown t) (destIsIP t).

Definition set_lastSuccessfulProbe (v : Time) (t : tcping) : tcping :=
  mkTcping (startTime t) (endTime t) (startOfUptime t) (startOfDowntime t)
    v (lastUnsuccessfulProbe t) (longestUptime t)
    (longestDowntime t) (rtt t) (hostnameChanges t) (userInput t)
    (ongoingSuccessfulProbes t) (ongoingUnsuccessfulProbes t) (totalDowntime t)
    (totalUptime t) (totalSuccessfulProbes t) (totalUnsuccessfulProbes t)
    (retriedHostnameLookups t) (rttResults t) (destWasDown t) (destIsIP t).

Definition set_lastUnsuccessfulProbe (v : Time) (t : tcping) : tcping :=
  mkTcping (startTime t) (endTime t) (startOfUptime t) (startOfDowntime t)
    (lastSuccessfulProbe t) v (longestUptime t)
    (longestDowntime t) (rtt t) (hostnameChanges t) (userInput t)
    (ongoingSuccessfulProbes t) (ongoingUnsuccessfulProbes t) (totalDowntime t)
    (totalUptime t) (totalSuccessfulProbes t) (totalUnsuccessfulProbes t)
    (retriedHostnameLookups t) (rttResults t) (destWasDown t) (destIsIP t).

Definition set_longestUptime (v : longestTime) (t : tcping) : tcping :=
  mkTcping (startTime t) (endTime t) (startOfUptime t) (startOfDowntime t)
    (lastSuccessfulProbe t) (lastUnsuccessfulProbe t) v
    (longestDowntime t) (rtt t) (hostnameChanges t) (userInput t)
    (ongoingSuccessfulProbes t) (ongoingUnsuccessfulProbes t) (totalDowntime t)
    (totalUptime t) (totalSuccessfulProbes t) (totalUnsuccessfulProbes t)
    (retriedHostnameLookups t) (rttResults t) (destWasDown t) (destIsIP t).

Definition set_longestDowntime (v : longestTime) (t : tcping) : tcping :=
  mkTcping (startTime t) (endTime t) (startOfUptime t) (startOfDowntime t)
    (lastSuccessfulProbe t) (lastUnsuccessfulProbe t) (longestUptime t)
    v (rtt t) (hostnameChanges t) (userInput t)
    (ongoingSuccessfulProbes t) (ongoingUnsuccessfulProbes t) (totalDowntime t)
    (totalUptime t) (totalSuccessfulProbes t) (totalUnsuccessfulProbes t)
    (retriedHostnameLookups t) (rttResults t) (destWasDown t) (destIsIP t).

Definition set_rtt (v : list float32) (t : tcping) : tcping :=
  mkTcping (startTime t) (endTime t) (startOfUptime t) (startOfDowntime t)
    (lastSuccessfulProbe t) (lastUnsuccessfulProbe t) (longestUptime t)
    (longestDowntime t) v (hostnameChanges t) (userInput t)
    (ongoingSuccessfulProbes t) (ongoingUnsuccessfulProbes t) (totalDowntime t)
    (totalUptime t) (totalSuccessfulProbes t) (totalUnsuccessfulProbes t)
    (retriedHostnameLookups t) (rttResults t) (destWasDown t) (destIsIP t).

Definition set_hostnameChanges (v : list hostnameChange) (t : tcping) : tcping :=
  mkTcping (startTime t) (endTime t) (startOfUptime t) (startOfDowntime t)
    (lastSuccessfulProbe t) (lastUnsuccessfulProbe t) (longestUptime t)
    (longestDowntime t) (rtt t) v (userInput t)
    (ongoingSuccessfulProbes t) (ongoingUnsuccessfulProbes t) (totalDowntime t)
    (totalUptime t) (totalSuccessfulProbes t) (totalUnsuccessfulProbes t)
    (retriedHostnameLookups t) (rttResults t) (destWasDown t) (destIsIP t).

Definition set_userInput (v : userInputT) (t : tcping) : tcping :=
  mkTcping (startTime t) (endTime t) (startOfUptime t) (startOfDowntime t)
    (lastSuccessfulProbe t) (lastUnsuccessfulProbe t) (longestUptime t)
    (longestDowntime t) (rtt t) (hostnameChanges t) v
    (ongoingSuccessfulProbes t) (ongoingUnsuccessfulProbes t) (totalDowntime t)
    (totalUptime t) (totalSuccessfulProbes t) (totalUnsuccessfulProbes t)
    (retriedHostnameLookups t) (rttResults t) (destWasDown t) (destIsIP t).

Definition set_ongoingSuccessfulProbes (v : Z) (t : tcping) : tcping :=
  mkTcping (startTime t) (endTime t) (startOfUptime t) (startOfDowntime t)
    (lastSuccessfulProbe t) (lastUnsuccessfulProbe t) (longestUptime t)
    (longestDowntime t) (rtt t) (hostnameChanges t) (userInput t)
    v (ongoingUnsuccessfulProbes t) (totalDowntime t)
    (totalUptime t) (totalSuccessfulProbes t) (totalUnsuccessfulProbes t)
    (retriedHostnameLookups t) (rttResults t) (destWasDown t) (destIsIP t).

Definition set_ongoingUnsuccessfulProbes (v : Z) (t : tcping) : tcping :=
  mkTcping (startTime t) (endTime t) (startOfUptime t) (startOfDowntime t)
    (lastSuccessfulProbe t) (lastUnsuccessfulProbe t) (longestUptime t)
    (longestDowntime t) (rtt t) (hostnameChanges t) (userInput t)
    (ongoingSuccessfulProbes t) v (totalDowntime t)
    (totalUptime t) (totalSuccessfulProbes t) (totalUnsuccessfulProbes t)
    (retriedHostnameLookups t) (rttResults t) (destWasDown t) (destIsIP t).

Definition set_totalDowntime (v : Duration) (t : tcping) : tcping :=
  mkTcping (startTime t) (endTime t) (startOfUptime t) (startOfDowntime t)
    (lastSuccessfulProbe t) (lastUnsuccessfulProbe t) (longestUptime t)
    (longestDowntime t) (rtt t) (hostnameChanges t) (userInput t)
    (ongoingSuccessfulProbes t) (ongoingUnsuccessfulProbes t) v
    (totalUptime t) (totalSuccessfulProbes t) (totalUnsuccessfulProbes t)
    (retriedHostnameLookups t) (rttResults t) (destWasDown t) (destIsIP t).

Definition set_totalUptime (v : Duration) (t : tcping) : tcping :=
  mkTcping (startTime t) (endTime t) (startOfUptime t) (startOfDowntime t)
    (lastSuccessfulProbe t) (lastUnsuccessfulProbe t) (longestUptime t)
    (longestDowntime t) (rtt t) (hostnameChanges t) (userInput t)
    (ongoingSuccessfulProbes t) (ongoingUnsuccessfulProbes t) (totalDowntime t)
    v (totalSuccessfulProbes t) (totalUnsuccessfulProbes t)
    (retriedHostnameLookups t) (rttResults t) (destWasDown t) (destIsIP t).

Definition set_totalSuccessfulProbes (v : Z) (t : tcping) : tcping :=
  mkTcping (startTime t) (endTime t) (startOfUptime t) (startOfDowntime t)
    (lastSuccessfulProbe t) (lastUnsuccessfulProbe t) (longestUptime t)
    (longestDowntime t) (rtt t) (hostnameChanges t) (userInput t)
    (ongoingSuccessfulProbes t) (ongoingUnsuccessfulProbes t) (totalDowntime t)
    (totalUptime t) v (totalUnsuccessfulProbes t)
    (retriedHostnameLookups t) (rttResults t) (destWasDown t) (destIsIP t).

Definition set_totalUnsuccessfulProbes (v : Z) (t : tcping) : tcping :=
  mkTcping (startTime t) (endTime t) (startOfUptime t) (startOfDowntime t)
    (lastSuccessfulProbe t) (lastUnsuccessfulProbe t) (longestUptime t)
    (longestDowntime t) (rtt t) (hostnameChanges t) (userInput t)
    (ongoingSuccessfulProbes t) (ongoingUnsuccessfulProbes t) (totalDowntime t)
    (totalUptime t) (totalSuccessfulProbes t) v
    (retriedHostnameLookups t) (rttResults t) (destWasDown t) (destIsIP t).

Definition set_retriedHostnameLookups (v : Z) (t : tcping) : tcping :=
  mkTcping (startTime t) (endTime t) (startOfUptime t) (startOfDowntime t)
    (lastSuccessfulProbe t) (lastUnsuccessfulProbe t) (longestUptime t)
    (longestDowntime t) (rtt t) (hostnameChanges t) (userInput t)
    (ongoingSuccessfulProbes t) (ongoingUnsuccessfulProbes t) (totalDowntime t)
    (totalUptime t) (totalSuccessfulProbes t) (totalUnsuccessfulProbes t)
    v (rttResults t) (destWasDown t) (destIsIP t).

Definition set_rttResults (v : rttResult) (t : tcping) : tcping :=
  mkTcping (startTime t) (endTime t) (startOfUptime t) (startOfDowntime t)
    (lastSuccessfulProbe t) (lastUnsuccessfulProbe t) (longestUptime t)
    (longestDowntime t) (rtt t) (hostnameChanges t) (userInput t)
    (ongoingSuccessfulProbes t) (ongoingUnsuccessfulProbes t) (totalDowntime t)
    (totalUptime t) (totalSuccessfulProbes t) (totalUnsuccessfulProbes t)
    (retriedHostnameLookups t) v (destWasDown t) (destIsIP t).

Definition set_destWasDown (v : bool) (t : tcping) : tcping :=
  mkTcping (startTime t) (endTime t) (startOfUptime t) (startOfDowntime t)
    (lastSuccessfulProbe t) (lastUnsuccessfulProbe t) (longestUptime t)
    (longestDowntime t) (rtt t) (hostnameChanges t) (userInput t)
    (ongoingSuccessfulProbes t) (ongoingUnsuccessfulProbes t) (totalDowntime t)
    (totalUptime t) (totalSuccessfulProbes t) (totalUnsuccessfulProbes t)
    (retriedHostnameLookups t) (rttResults t) v (destIsIP t).

(** ** Printer events and outcomes *)

(** The messages of the [printError] calls of the resolver. *)
Inductive errorMessage : Type :=
| CannotResolve (host : string)
| NoIPv4Address (host : string)
| NoIPv6Address (host : string).

(** One constructor per method of the [printer] interface that the engine
    calls; [printStatistics] receives a copy of the tracker. *)
Inductive event : Type :=
| printStart (host : string) (p : Z)
| printProbeSuccess (sourceAddr : string) (ui : userInputT) (streak : Z) (r : float32)
| printProbeFail (ui : userInputT) (streak : Z)
| printTotalDownTime (downtime : Duration)
| printRetryingToResolve (host : string)
| printStatistics (t : tcping)
| printInfo (msg : string)
| printError (msg : errorMessage).

Inductive outcome (A : Type) : Type :=
| Done (a : A)
| Exited (code : Z)
| Panicked.

Arguments Done {A} a.
Arguments Exited {A} code.
Arguments Panicked {A}.

(** ** Longest intervals *)

Definition newLongestTime (startTime : Time) (duration : Duration) : longestTime :=
  mkLongestTime startTime (time_Add startTime duration) duration.

Definition calcLongestUptime (t : tcping) (duration : Duration) : tcping :=
  if IsZero (startOfUptime t) || (duration =? 0) then t
  else
    let longest := newLongestTime (startOfUptime t) duration in
    if IsZero (lt_end (longestUptime t)) then set_longestUptime longest t
    else if lt_duration (longestUptime t) <=? lt_duration longest
         then set_longestUptime longest t
         else t.

Definition calcLongestDowntime (t : tcping) (duration : Duration) : tcping :=
  if IsZero (startOfDowntime t) || (duration =? 0) then t
  else
    let longest := newLongestTime (startOfDowntime t) duration in
    if IsZero (lt_end (longestDowntime t)) then set_longestDowntime longest t
    else if lt_duration (longestDowntime t) <=? lt_duration longest
         then set_longestDowntime longest t
         else t.

(** ** Round-trip times *)

(** One turn of the loop of [calcMinAvgMaxRttTime]: the running sum and the
    result so far, then the sample. *)
Definition rtt_scan (acc : float32 * rttResult) (x : float32) : float32 * rttResult :=
  let (sum, result) := acc in
  let sum := f32_add sum x in
  let result :=
    if f32_ltb (rtt_max result) x
    then mkRttResult (rtt_min result) x (rtt_average result) (rtt_hasResults result)
    else result in
  let result :=
    if f32_ltb x (rtt_min result)
    then mkRttResult x (rtt_max result) (rtt_average result) (rtt_hasResults result)
    else result in
  (sum, result).

Definition calcMinAvgMaxRttTime (timeArr : list float32) : rttResult :=
  let arrLen := Z.of_nat (List.length timeArr) in
  let result :=
    match timeArr with
    | x :: _ => mkRttResult x f32_zero f32_zero false
    | [] => zero_rttResult
    end in
  let (sum, result) := fold_left rtt_scan timeArr (f32_zero, result) in
  if 0 <? arrLen
  then mkRttResult (rtt_min result) (rtt_max result)
         (f32_div sum (f32_of_Z arrLen)) true
  else result.

(** [time.Millisecond], in nanoseconds. *)
Definition Millisecond : Duration := 1000000.

Definition nanoToMillisecond (nano : Z) : float32 :=
  f32_div (f32_of_Z nano) (f32_of_Z Millisecond).

Definition maxDuration (x y : Duration) : Duration :=
  if y <? x then x else y.

(** The loss percentage that the three [printStatistics] methods compute
    from the totals. *)
Definition packetLoss (t : tcping) : float32 :=
  let totalPackets := uint_add (totalSuccessfulProbes t) (totalUnsuccessfulProbes t) in
  let loss :=
    f32_mul (f32_div (f32_of_Z (totalUnsuccessfulProbes t)) (f32_of_Z totalPackets))
            (f32_of_Z 100) in
  if f32_isNaN loss then f32_zero else loss.

(** ** The two entry points of the tracker *)

Definition handleConnError (t : tcping) (connTime : Time) (elapsed : Duration)
  : list event * tcping :=
  let t :=
    if negb (destWasDown t) then
      let t := set_startOfDowntime connTime t in
      let uptime := time_Sub (startOfDowntime t) (startOfUptime t) in
      let t := calcLongestUptime t uptime in
      let t := set_startOfUptime time_zero t in
      set_destWasDown true t
    else t in
  let t := set_totalDowntime (duration_add (totalDowntime t) elapsed) t in
  let t := set_lastUnsuccessfulProbe connTime t in
  let t := set_totalUnsuccessfulProbes (uint_inc (totalUnsuccessfulProbes t)) t in
  let t := set_ongoingUnsuccessfulProbes (uint_inc (ongoingUnsuccessfulProbes t)) t in
  ([printProbeFail (userInput t) (ongoingUnsuccessfulProbes t)], t).

(** The first block of [handleConnSuccess], taken when the target was down;
    it gives the recovery event and the tracker after the block. *)
Definition recover (t : tcping) (connTime : Time) : list event * tcping :=
  let t := set_startOfUptime connTime t in
  let downtime := time_Sub (startOfUptime t) (startOfDowntime t) in
  let t := calcLongestDowntime t downtime in
  let t := set_startOfDowntime time_zero t in
  let t := set_destWasDown false t in
  let t := set_ongoingUnsuccessfulProbes 0 t in
  let t := set_ongoingSuccessfulProbes 0 t in
  ([printTotalDownTime downtime], t).

Definition handleConnSuccess (t : tcping) (sourceAddr : string) (r : float32)
  (connTime : Time) (elapsed : Duration) : list event * tcping :=
  let (evs, t) := if destWasDown t then recover t connTime else ([], t) in
  let t := if IsZero (startOfUptime t) then set_startOfUptime connTime t else t in
  let t := set_totalUptime (duration_add (totalUptime t) elapsed) t in
  let t := set_lastSuccessfulProbe connTime t in
  let t := set_totalSuccessfulProbes (uint_inc (totalSuccessfulProbes t)) t in
  let t := set_ongoingSuccessfulProbes (uint_inc (ongoingSuccessfulProbes t)) t in
  let t := set_rtt (rtt t ++ [r]) t in
  (evs ++
   (if showFailuresOnly (userInput t) then []
    else [printProbeSuccess sourceAddr (userInput t) (ongoingSuccessfulProbes t) r]),
   t).

(** ** One probe *)

(** What the dial returned: an error, or a connection with its local
    address. *)
Inductive dialResult : Type :=
| DialError
| DialOk (localAddr : string).

(** [connStart] is the clock before the dial, [connDuration] the
    [time.Since connStart] after it. *)
Definition tcpProbe (t : tcping) (dial : dialResult) (connStart : Time)
  (connDuration : Duration) : list event * tcping :=
  let r := nanoToMillisecond connDuration in
  let elapsed := maxDuration connDuration (intervalBetweenProbes (userInput t)) in
  match dial with
  | DialError => handleConnError t connStart elapsed
  | DialOk localAddr => handleConnSuccess t localAddr r connStart elapsed
  end.

(** ** Statistics *)

(** [now] is the clock read by [time.Since]. *)
Definition printStats (t : tcping) (now : Time) : list event * tcping :=
  let t :=
    if destWasDown t
    then calcLongestDowntime t (time_Sub now (startOfDowntime t))
    else calcLongestUptime t (time_Sub now (startOfUptime t)) in
  let t := set_rttResults (calcMinAvgMaxRttTime (rtt t)) t in
  ([printStatistics t], t).

(** [shutdown] stamps the end time at [endNow], prints the statistics (its
    [time.Since] reads [now]) and exits with status 0. *)
Definition shutdown (t : tcping) (endNow now : Time) : list event * outcome tcping :=
  let t := set_endTime endNow t in
  let (evs, _) := printStats t now in
  (evs, Exited 0).

(** ** The resolver *)

(** What the outside world answers to one call of [resolveHostname]:
    [lookup] is the result of [LookupNetIP] ([None] when it returns an
    error) and [rnd] the random number that [rand.Intn n] reduces below
    [n]. *)
Record dnsReply : Type := mkDnsReply {
  lookup : option (list Addr);
  rnd : nat
}.

(** The index chosen among [n] candidates. *)
Definition pickIndex (n : nat) (r : nat) : nat :=
  if Nat.ltb 1 n then Nat.modulo r n else 0%nat.

(** [ip, _ = netip.ParseAddr(l[index].Unmap().String())]: printing and
    parsing an [Addr] gives it back, so this is [Unmap], and an index out of
    range panics. *)
Definition reparseAt (l : list Addr) (index : nat) : outcome Addr :=
  match nth_error l index with
  | Some a => Done (Unmap a)
  | None => Panicked
  end.

Definition ipv4Candidates (ipAddrs : list Addr) : list Addr :=
  flat_map (fun a =>
    (if Is4 a then [a] else []) ++ (if Is4In6 a then [Unmap a] else []))
    ipAddrs.

Definition selectResolvedIP (t : tcping) (ipAddrs : list Addr) (r : nat)
  : list event * outcome Addr :=
  if useIPv4 (userInput t) then
    let ipList := ipv4Candidates ipAddrs in
    if Nat.eqb (List.length ipList) 0
    then ([printError (NoIPv4Address (hostname (userInput t)))], Exited 1)
    else ([], reparseAt ipList (pickIndex (List.length ipList) r))
  else if useIPv6 (userInput t) then
    let ipList := filter Is6 ipAddrs in
    if Nat.eqb (List.length ipList) 0
    then ([printError (NoIPv6Address (hostname (userInput t)))], Exited 1)
    else ([], reparseAt ipList (pickIndex (List.length ipList) r))
  else ([], reparseAt ipAddrs (pickIndex (List.length ipAddrs) r)).

Section Engine.

(** [netip.ParseAddr], of the standard library. *)
Variable ParseAddr : string -> option Addr.

Definition resolveHostname (t : tcping) (reply : dnsReply) : list event * outcome Addr :=
  match ParseAddr (hostname (userInput t)) with
  | Some a => ([], Done a)
  | None =>
    match lookup reply with
    | None =>
      if negb (totalSuccessfulProbes t =? 0) || negb (totalUnsuccessfulProbes t =? 0)
      then ([], Done (ip (userInput t)))
      else ([printError (CannotResolve (hostname (userInput t)))], Exited 1)
    | Some ipAddrs => selectResolvedIP t ipAddrs (rnd reply)
    end
  end.

(** The tail of [retryResolveHostname], once the address is resolved. *)
Definition recordResolved (t : tcping) (a : Addr) (now : Time) : tcping :=
  let t := set_userInput (set_ip a (userInput t)) t in
  let t := set_ongoingUnsuccessfulProbes 0 t in
  let t := set_retriedHostnameLookups (uint_inc (retriedHostnameLookups t)) t in
  if Nat.eqb (List.length (hostnameChanges t)) 0 then t
  else
    match nth_error (hostnameChanges t) (List.length (hostnameChanges t) - 1) with
    | Some lastChange =>
      if negb (Addr_eqb (hc_Addr lastChange) (ip (userInput t)))
      then set_hostnameChanges
             (hostnameChanges t ++ [mkHostnameChange (ip (userInput t)) now]) t
      else t
    | None => t
    end.

(** [now] is the clock read for the [When] of a new record. *)
Definition retryResolveHostname (t : tcping) (reply : dnsReply) (now : Time)
  : list event * outcome tcping :=
  if retryHostnameLookupAfter (userInput t) <=? ongoingUnsuccessfulProbes t then
    let (evs, res) := resolveHostname t reply in
    (printRetryingToResolve (hostname (userInput t)) :: evs,
     match res with
     | Done a => Done (recordResolved t a now)
     | Exited c => Exited c
     | Panicked => Panicked
     end)
  else ([], Done t).

(** ** The session *)

(** What drives the tracker in the loop of [main]: the guarded call of
    [retryResolveHostname], a probe, and [printStats] when Enter was
    pressed. *)
Inductive input : Type :=
| InRetry (reply : dnsReply) (now : Time)
| InProbe (dial : dialResult) (connStart : Time) (connDuration : Duration)
| InEnter (now : Time).

(** The clock reading that an input carries. *)
Definition input_time (i : input) : Time :=
  match i with
  | InRetry _ now => now
  | InProbe _ connStart _ => connStart
  | InEnter now => now
  end.

Definition step (t : tcping) (i : input) : list event * outcome tcping :=
  match i with
  | InRetry reply now =>
    if shouldRetryResolve (userInput t)
    then retryResolveHostname t reply now
    else ([], Done t)
  | InProbe dial connStart connDuration =>
    let (evs, t') := tcpProbe t dial connStart connDuration in (evs, Done t')
  | InEnter now =>
    let (evs, t') := printStats t now in (evs, Done t')
  end.

(** A sequence of inputs, until the process ends. *)
Fixpoint run (t : tcping) (inputs : list input) : list event * outcome tcping :=
  match inputs with
  | [] => ([], Done t)
  | i :: rest =>
    let (evs, res) := step t i in
    match res with
    | Done t' => let (evs', res') := run t' rest in (evs ++ evs', res')
    | Exited c => (evs, Exited c)
    | Panicked => (evs, Panicked)
    end
  end.

(** What one turn of the loop of [main] receives. *)
Record cycle : Type := mkCycle {
  c_reply : dnsReply;
  c_retryNow : Time;
  c_dial : dialResult;
  c_connStart : Time;
  c_connDuration : Duration;
  c_pressedEnter : bool;
  c_statsNow : Time;
  c_endNow : Time
}.

Definition cycle_inputs (c : cycle) : list input :=
  [InRetry (c_reply c) (c_retryNow c);
   InProbe (c_dial c) (c_connStart c) (c_connDuration c)]
  ++ (if c_pressedEnter c then [InEnter (c_statsNow c)] else []).

(** One turn of the loop of [main], on the tracker and [probeCount]. *)
Definition iteration (s : tcping * Z) (c : cycle) : list event * outcome (tcping * Z) :=
  let (t, probeCount) := s in
  let (evs, res) := run t (cycle_inputs c) in
  match res with
  | Done t' =>
    if negb (probesBeforeQuit (userInput t') =? 0) then
      let probeCount := uint_inc probeCount in
      if probeCount =? probesBeforeQuit (userInput t')
      then
        let (evs', res') := shutdown t' (c_endNow c) (c_endNow c) in
        (evs ++ evs',
         match res' with
         | Done t'' => Done (t'', probeCount)
         | Exited code => Exited code
         | Panicked => Panicked
         end)
      else (evs, Done (t', probeCount))
    else (evs, Done (t', probeCount))
  | Exited code => (evs, Exited code)
  | Panicked => (evs, Panicked)
  end.

(** The trackers that a session reaches: from the one [processUserInput]
    builds, by inputs that do not end the process. *)
Inductive reachable : tcping -> Prop :=
| reach_new : forall ui start when isIP,
    reachable (new_tcping ui start when isIP)
| reach_step : forall t i evs t',
    reachable t -> step t i = (evs, Done t') -> reachable t'.

(** The same with the clock: [reachable_at now t] when [t] is reached and the
    last clock reading was [now]; the readings are positive and never go
    back. *)
Inductive reachable_at : Time -> tcping -> Prop :=
| reach_at_new : forall ui start when isIP now,
    0 < now -> reachable_at now (new_tcping ui start when isIP)
| reach_at_step : forall now t i evs t',
    reachable_at now t -> now <= input_time i ->
    step t i = (evs, Done t') -> reachable_at (input_time i) t'.

End Engine.

(** ** The rules of the specification, as predicates *)

(** How closing an interval that began at [start] and lasted [d] turns the
    longest record [old] into [new]: nothing happens for an interval that was
    never opened or has no duration; the first record is taken as it comes;
    afterwards the record is replaced when [d] is at least the recorded
    duration, so that ties go to the later interval. *)
Definition tie_break_update (start : Time) (d : Duration) (old new : longestTime) : Prop :=
  (start = 0 \/ d = 0 -> new = old) /\
  (start <> 0 -> d <> 0 -> lt_end old = 0 -> new = newLongestTime start d) /\
  (start <> 0 -> d <> 0 -> lt_end old <> 0 -> lt_duration old <= d ->
   new = newLongestTime start d) /\
  (start <> 0 -> d <> 0 -> lt_end old <> 0 -> d < lt_duration old -> new = old).

(** The same without the case of the first record: the record is replaced
    exactly when [d] is at least the recorded duration. *)
Definition replaced_when_ge (start : Time) (d : Duration) (old new : longestTime) : Prop :=
  (start = 0 \/ d = 0 -> new = old) /\
  (start <> 0 -> d <> 0 -> lt_duration old <= d -> new = newLongestTime start d) /\
  (start <> 0 -> d <> 0 -> d < lt_duration old -> new = old).

(** A printer event that reports an error or an information. *)
Definition is_report (e : event) : Prop :=
  (exists m, e = printError m) \/ (exists m, e = printInfo m).

(** What holds of every tracker that a session with a sane clock reaches. *)
Record tracker_ok (now : Time) (t : tcping) : Prop := mkTrackerOk {
  ok_now : 0 < now;
  ok_up_lo : 0 <= startOfUptime t;
  ok_up_hi : startOfUptime t <= now;
  ok_down_lo : 0 <= startOfDowntime t;
  ok_down_hi : startOfDowntime t <= now;
  ok_lu_dur : 0 <= lt_duration (longestUptime t);
  ok_lu_end : lt_end (longestUptime t) = 0 -> lt_duration (longestUptime t) = 0;
  ok_ld_dur : 0 <= lt_duration (longestDowntime t);
  ok_ld_end : lt_end (longestDowntime t) = 0 -> lt_duration (longestDowntime t) = 0
}.

(** The counters of a reached tracker. *)
Record counters_ok (t : tcping) : Prop := mkCountersOk {
  ok_os : 0 <= ongoingSuccessfulProbes t < uint_modulus;
  ok_ou : 0 <= ongoingUnsuccessfulProbes t < uint_modulus;
  ok_ts : totalSuccessfulProbes t = Z.of_nat (List.length (rtt t)) mod uint_modulus;
  ok_up : destWasDown t = false -> ongoingUnsuccessfulProbes t = 0
}.

(** After [n] inputs the counters are at most [n]: they do not wrap around
    in a session of fewer than [2^64] inputs. *)
Definition counted (n : Z) (t : tcping) : Prop :=
  0 <= ongoingSuccessfulProbes t <= totalSuccessfulProbes t /\
  0 <= ongoingUnsuccessfulProbes t <= totalUnsuccessfulProbes t /\
  totalSuccessfulProbes t + totalUnsuccessfulProbes t <= n.

(** ** Statements of the specification that the code does not meet *)

(** Neither streak counter decreases on a step, unless the step changes the
    state between up and down. *)
Definition streaks_fall_only_at_transitions (ParseAddr : string -> option Addr) : Prop :=
  forall t i evs t',
    reachable ParseAddr t ->
    step ParseAddr t i = (evs, Done t') ->
    ongoingSuccessfulProbes t' < ongoingSuccessfulProbes t \/
    ongoingUnsuccessfulProbes t' < ongoingUnsuccessfulProbes t ->
    destWasDown t' <> destWasDown t.

(** A failed lookup of a due retry, after the first probe, is reported by an
    error or information event. *)
Definition midsession_failure_reported (ParseAddr : string -> option Addr) : Prop :=
  forall t reply now,
    ParseAddr (hostname (userInput t)) = None ->
    lookup reply = None ->
    totalSuccessfulProbes t <> 0 \/ totalUnsuccessfulProbes t <> 0 ->
    retryHostnameLookupAfter (userInput t) <= ongoingUnsuccessfulProbes t ->
    exists e, In e (fst (retryResolveHostname ParseAddr t reply now)) /\ is_report e.

(** A snapshot leaves the tracker as it was. *)
Definition snapshot_is_pure : Prop :=
  forall t now, snd (printStats t now) = t.

(** The summary of a non-empty sequence of samples is ordered and marked as
    having results. *)
Definition rtt_summary_ordered : Prop :=
  forall timeArr,
    timeArr <> [] ->
    let result := calcMinAvgMaxRttTime timeArr in
    f32_leb (rtt_min result) (rtt_average result) = true /\
    f32_leb (rtt_average result) (rtt_max result) = true /\
    rtt_hasResults result = true.

(** ** Sample values *)

(** A parser that knows one literal address. *)
Definition sampleParseAddr (s : string) : option Addr :=
  if String.eqb s "192.0.2.1" then Some (Addr4 3221225985) else None.

(** [tcping -r 2 example.org 443], one second between probes. *)
Definition sample_ui : userInputT :=
  mkUserInput (Addr4 3221225985) "example.org" false 2 0
    1000000000 1000000000 443 false false true false false.

Definition sample_tcping : tcping := new_tcping sample_ui 1000 1000 false.

(** The same tracker after two failed probes, a second apart. *)
Definition sample_down : tcping :=
  snd (tcpProbe (snd (tcpProbe sample_tcping DialError 2000 5000))
         DialError 1000002000 5000).

(** The same tracker after one successful probe that took 5 ms. *)
Definition sample_up : tcping :=
  snd (tcpProbe sample_tcping (DialOk "192.0.2.7:50000") 2000 5000000).

(** A lookup that fails, and one that finds a new address. *)
Definition sample_failure : dnsReply := mkDnsReply None 0.
Definition sample_moved : dnsReply := mkDnsReply (Some [Addr4 3221225986]) 0.

(** Three connections that took 200 003 ns each. *)
Definition sample_rtts : list float32 :=
  [nanoToMillisecond 200003; nanoToMillisecond 200003; nanoToMillisecond 200003].

(** The tracker at the end of a run that did not end the process. *)
Definition final_tracker (r : list event * outcome tcping) : option tcping :=
  match snd r with
  | Done t => Some t
  | _ => None
  end.

(** Scenario A: three successful probes, one second apart. *)
Definition scenario_A : list input :=
  [InProbe (DialOk "192.0.2.7:50000") 2000 5000000;
   InProbe (DialOk "192.0.2.7:50000") 1000002000 5000000;
   InProbe (DialOk "192.0.2.7:50000") 2000002000 5000000].

(** Scenario B: five probes that time out after a second, then a success. *)
Definition scenario_B : list input :=
  [InProbe DialError 2000 1000000000;
   InProbe DialError 1000002000 1000000000;
   InProbe DialError 2000002000 1000000000;
   InProbe DialError 3000002000 1000000000;
   InProbe DialError 4000002000 1000000000;
   InProbe (DialOk "192.0.2.7:50000") 5000002000 5000000].

(** Scenario D: two failures reach the threshold of [sample_ui]; the retry
    finds another address. *)
Definition scenario_D : list input :=
  [InProbe DialError 2000 1000000000;
   InProbe DialError 1000002000 1000000000;
   InRetry sample_moved 2000002000].

(** Scenario E: two uptimes of one second each, a failure after each. *)
Definition scenario_E : list input :=
  [InProbe (DialOk "192.0.2.7:50000") 2000 5000000;
   InProbe DialError 1000002000 5000000;
   InProbe (DialOk "192.0.2.7:50000") 2000002000 5000000;
   InProbe DialError 3000002000 5000000].

(** ** Auxiliary definitions for the proofs *)

(** The record after the first shift of [binary_round_aux]. *)
Definition shifted (mx : positive) (lx : location) (k : Z) : shr_record :=
  match k with
  | Zpos p => iter_pos shr_1 p (shr_record_of_loc (Zpos mx) lx)
  | _ => shr_record_of_loc (Zpos mx) lx
  end.

(** Case analysis on every comparison in sight. *)
Ltac compare_cases :=
  repeat match goal with
  | H : context [Z.compare ?a ?b] |- _ =>
    destruct (Z.compare_spec a b) as [?Hc|?Hc|?Hc]
  | |- context [Z.compare ?a ?b] =>
    destruct (Z.compare_spec a b) as [?Hc|?Hc|?Hc]
  | H : context [Pos.compare_cont Eq ?a ?b] |- _ =>
    change (Pos.compare_cont Eq a b) with (Pos.compare a b) in H;
    destruct (Pos.compare_spec a b) as [?Hc|?Hc|?Hc]
  | |- context [Pos.compare_cont Eq ?a ?b] =>
    change (Pos.compare_cont Eq a b) with (Pos.compare a b);
    destruct (Pos.compare_spec a b) as [?Hc|?Hc|?Hc]
  end.

(** * Properties *)

(** ** Arithmetic of the machine types *)

Lemma uint_inc_small : forall x, 0 <= x -> x + 1 < uint_modulus -> uint_inc x = x + 1.
Proof.
  intros x H0 H1. unfold uint_inc, uint_add. apply Z.mod_small. lia.
Qed.

Lemma uint_inc_range : forall x, 0 <= uint_inc x < uint_modulus.
Proof.
  intros x. unfold uint_inc, uint_add. apply Z.mod_pos_bound. reflexivity.
Qed.

Lemma duration_add_small :
  forall x y, minDuration <= x + y <= maxDurationValue -> duration_add x y = x + y.
Proof.
  intros x y H. unfold duration_add, minDuration, maxDurationValue in *.
  rewrite Z.mod_small; lia.
Qed.

Lemma maxDuration_max : forall x y, maxDuration x y = Z.max x y.
Proof.
  intros x y. unfold maxDuration. destruct (Z.ltb_spec y x); lia.
Qed.

Lemma time_Sub_exact :
  forall t u, minDuration <= t - u <= maxDurationValue -> time_Sub t u = t - u.
Proof.
  intros t u H. unfold time_Sub.
  destruct (Z.ltb_spec (t - u) minDuration); [lia|].
  destruct (Z.ltb_spec maxDurationValue (t - u)); lia.
Qed.

Lemma time_Sub_nonneg : forall t u, u <= t -> 0 <= time_Sub t u.
Proof.
  intros t u H. unfold time_Sub, minDuration, maxDurationValue.
  destruct (Z.ltb_spec (t - u) (- 2 ^ 63)); [lia|].
  destruct (Z.ltb_spec (2 ^ 63 - 1) (t - u)); lia.
Qed.

Lemma IsZero_true : forall t, IsZero t = true <-> t = 0.
Proof. intros t. unfold IsZero. apply Z.eqb_eq. Qed.

Lemma IsZero_false : forall t, IsZero t = false <-> t <> 0.
Proof. intros t. unfold IsZero. apply Z.eqb_neq. Qed.

Lemma Addr_eqb_eq : forall x y, Addr_eqb x y = true <-> x = y.
Proof.
  intros [|a|a] [|b|b]; simpl; split; intros H; try congruence; try reflexivity.
  - apply N.eqb_eq in H. congruence.
  - injection H as ->. apply N.eqb_refl.
  - apply N.eqb_eq in H. congruence.
  - injection H as ->. apply N.eqb_refl.
Qed.

(** ** The longest records *)

Lemma calcLongestUptime_frame :
  forall t d,
    calcLongestUptime t d = set_longestUptime (longestUptime (calcLongestUptime t d)) t.
Proof.
  intros t d. unfold calcLongestUptime.
  destruct (IsZero (startOfUptime t) || (d =? 0)); [destruct t; reflexivity|].
  destruct (IsZero (lt_end (longestUptime t))); [reflexivity|].
  destruct (lt_duration (longestUptime t) <=? _); [reflexivity|destruct t; reflexivity].
Qed.

Lemma calcLongestDowntime_frame :
  forall t d,
    calcLongestDowntime t d = set_longestDowntime (longestDowntime (calcLongestDowntime t d)) t.
Proof.
  intros t d. unfold calcLongestDowntime.
  destruct (IsZero (startOfDowntime t) || (d =? 0)); [destruct t; reflexivity|].
  destruct (IsZero (lt_end (longestDowntime t))); [reflexivity|].
  destruct (lt_duration (longestDowntime t) <=? _); [reflexivity|destruct t; reflexivity].
Qed.

Lemma calcLongestUptime_rule :
  forall t d,
    tie_break_update (startOfUptime t) d (longestUptime t)
      (longestUptime (calcLongestUptime t d)).
Proof.
  intros t d. unfold tie_break_update, calcLongestUptime.
  destruct (IsZero (startOfUptime t)) eqn:Hs; simpl.
  { apply IsZero_true in Hs. repeat split; intros; try reflexivity; contradiction. }
  apply IsZero_false in Hs.
  destruct (Z.eqb_spec d 0) as [Hd|Hd].
  { repeat split; intros; try reflexivity; contradiction. }
  destruct (IsZero (lt_end (longestUptime t))) eqn:He.
  { apply IsZero_true in He. simpl.
    repeat split; intros; try reflexivity; try contradiction; lia. }
  apply IsZero_false in He.
  destruct (Z.leb_spec (lt_duration (longestUptime t)) d); simpl;
    repeat split; intros; try reflexivity; try contradiction; lia.
Qed.

Lemma calcLongestDowntime_rule :
  forall t d,
    tie_break_update (startOfDowntime t) d (longestDowntime t)
      (longestDowntime (calcLongestDowntime t d)).
Proof.
  intros t d. unfold tie_break_update, calcLongestDowntime.
  destruct (IsZero (startOfDowntime t)) eqn:Hs; simpl.
  { apply IsZero_true in Hs. repeat split; intros; try reflexivity; contradiction. }
  apply IsZero_false in Hs.
  destruct (Z.eqb_spec d 0) as [Hd|Hd].
  { repeat split; intros; try reflexivity; contradiction. }
  destruct (IsZero (lt_end (longestDowntime t))) eqn:He.
  { apply IsZero_true in He. simpl.
    repeat split; intros; try reflexivity; try contradiction; lia. }
  apply IsZero_false in He.
  destruct (Z.leb_spec (lt_duration (longestDowntime t)) d); simpl;
    repeat split; intros; try reflexivity; try contradiction; lia.
Qed.

(** ** Recovery: a success while the target was down *)

Lemma recover_fields :
  forall t now,
    let t1 := snd (recover t now) in
    startOfUptime t1 = now /\ startOfDowntime t1 = time_zero /\
    destWasDown t1 = false /\
    ongoingSuccessfulProbes t1 = 0 /\ ongoingUnsuccessfulProbes t1 = 0 /\
    longestDowntime t1 =
      longestDowntime
        (calcLongestDowntime (set_startOfUptime now t) (time_Sub now (startOfDowntime t))) /\
    longestUptime t1 = longestUptime t /\
    userInput t1 = userInput t /\ rtt t1 = rtt t /\
    totalSuccessfulProbes t1 = totalSuccessfulProbes t /\
    totalUnsuccessfulProbes t1 = totalUnsuccessfulProbes t /\
    totalUptime t1 = totalUptime t /\ totalDowntime t1 = totalDowntime t /\
    hostnameChanges t1 = hostnameChanges t /\
    retriedHostnameLookups t1 = retriedHostnameLookups t.
Proof.
  intros t now. unfold recover. cbn [snd].
  rewrite calcLongestDowntime_frame. cbn. repeat split; reflexivity.
Qed.

(** C1. A success that arrives while the target was down ([destWasDown])
    marks the target up, closes the downtime interval with the duration
    [now - startOfDowntime] (Go's [Time.Sub]), updates the longest downtime by
    the [>=] rule, emits the recovery event carrying that downtime, sets both
    streak counters to zero, so that the success streak of this probe is 1,
    clears the start of the downtime and sets the start of the uptime to
    [now]. *)
Theorem handleConnSuccess_while_down :
  forall t sourceAddr r now elapsed,
    destWasDown t = true ->
    let downtime := time_Sub now (startOfDowntime t) in
    let t' := snd (handleConnSuccess t sourceAddr r now elapsed) in
    fst (handleConnSuccess t sourceAddr r now elapsed) =
      printTotalDownTime downtime ::
      (if showFailuresOnly (userInput t) then []
       else [printProbeSuccess sourceAddr (userInput t) 1 r]) /\
    (minDuration <= now - startOfDowntime t <= maxDurationValue ->
     downtime = now - startOfDowntime t) /\
    destWasDown t' = false /\
    tie_break_update (startOfDowntime t) downtime (longestDowntime t) (longestDowntime t') /\
    ongoingSuccessfulProbes (snd (recover t now)) = 0 /\
    ongoingUnsuccessfulProbes (snd (recover t now)) = 0 /\
    ongoingSuccessfulProbes t' = 1 /\
    ongoingUnsuccessfulProbes t' = 0 /\
    startOfDowntime t' = time_zero /\
    startOfUptime t' = now.
Proof.
  intros t sourceAddr r now elapsed Hdown downtime t'.
  destruct (recover_fields t now)
    as (Hsu & Hsd & Hd & Hos & Hou & Hld & _ & Hui & _).
  subst t'. unfold handleConnSuccess. rewrite Hdown.
  destruct (recover t now) as [evs t1] eqn:Hrec.
  assert (Hevs : evs = [printTotalDownTime downtime]).
  { unfold recover in Hrec. injection Hrec as <- _. reflexivity. }
  cbn [snd] in *.
  assert (Hstart :
    (if IsZero (startOfUptime t1) then set_startOfUptime now t1 else t1) = t1).
  { destruct (IsZero (startOfUptime t1)); [|reflexivity].
    rewrite <- Hsu. destruct t1; reflexivity. }
  rewrite Hstart. cbn. rewrite Hui, Hos, Hou, Hd, Hsd, Hsu, Hld, Hevs.
  split; [reflexivity|].
  split; [intros Hr; unfold downtime; apply time_Sub_exact; exact Hr|].
  split; [reflexivity|].
  split; [exact (calcLongestDowntime_rule (set_startOfUptime now t) downtime)|].
  repeat split; reflexivity.
Qed.

(** ** The elapsed time of a probe *)

(** C2. The time a probe adds to the accumulated uptime (on success) or
    downtime (on failure) is the larger of the measured connect duration and
    the configured interval, so it is never less than either; the other
    accumulator is left alone.  The addition is that of [int64]: as long as
    the sum is a [time.Duration], the accumulator after the probe is the
    accumulator before it plus that larger value, hence at least the
    accumulator before it plus the connect duration, and at least the
    accumulator before it plus the interval. *)
Theorem tcpProbe_elapsed :
  forall t dial connStart connDuration,
    let elapsed := Z.max connDuration (intervalBetweenProbes (userInput t)) in
    let t' := snd (tcpProbe t dial connStart connDuration) in
    match dial with
    | DialOk _ =>
      totalUptime t' = duration_add (totalUptime t) elapsed /\
      totalDowntime t' = totalDowntime t /\
      (minDuration <= totalUptime t + elapsed <= maxDurationValue ->
       totalUptime t' = totalUptime t + elapsed /\
       totalUptime t + connDuration <= totalUptime t' /\
       totalUptime t + intervalBetweenProbes (userInput t) <= totalUptime t')
    | DialError =>
      totalDowntime t' = duration_add (totalDowntime t) elapsed /\
      totalUptime t' = totalUptime t /\
      (minDuration <= totalDowntime t + elapsed <= maxDurationValue ->
       totalDowntime t' = totalDowntime t + elapsed /\
       totalDowntime t + connDuration <= totalDowntime t' /\
       totalDowntime t + intervalBetweenProbes (userInput t) <= totalDowntime t')
    end /\
    connDuration <= elapsed /\
    intervalBetweenProbes (userInput t) <= elapsed.
Proof.
  intros t dial connStart connDuration elapsed t'.
  split; [|subst elapsed; lia].
  assert (Hadd :
    match dial with
    | DialOk _ =>
      totalUptime t' = duration_add (totalUptime t) elapsed /\
      totalDowntime t' = totalDowntime t
    | DialError =>
      totalDowntime t' = duration_add (totalDowntime t) elapsed /\
      totalUptime t' = totalUptime t
    end).
  { subst t' elapsed. unfold tcpProbe. rewrite maxDuration_max.
    destruct dial as [|localAddr].
    - unfold handleConnError. destruct (destWasDown t); cbn.
      + split; reflexivity.
      + rewrite calcLongestUptime_frame. cbn. split; reflexivity.
    - unfold handleConnSuccess. destruct (destWasDown t).
      + destruct (recover_fields t connStart)
          as (_ & _ & _ & _ & _ & _ & _ & _ & _ & _ & _ & Htu & Htd & _).
        destruct (recover t connStart) as [evs t1]. cbn [snd] in *.
        destruct (IsZero (startOfUptime t1)); cbn; rewrite Htu, Htd; split; reflexivity.
      + destruct (IsZero (startOfUptime t)); cbn; split; reflexivity. }
  destruct dial as [|localAddr]; destruct Hadd as (Hsum & Hother);
    (split; [exact Hsum|]); (split; [exact Hother|]); intros Hrange;
    rewrite Hsum, (duration_add_small _ _ Hrange); subst elapsed; lia.
Qed.

(** ** What each operation does to the counters *)

Lemma handleConnError_counters :
  forall t connTime elapsed,
    let t' := snd (handleConnError t connTime elapsed) in
    rtt t' = rtt t /\
    totalSuccessfulProbes t' = totalSuccessfulProbes t /\
    totalUnsuccessfulProbes t' = uint_inc (totalUnsuccessfulProbes t) /\
    ongoingSuccessfulProbes t' = ongoingSuccessfulProbes t /\
    ongoingUnsuccessfulProbes t' = uint_inc (ongoingUnsuccessfulProbes t) /\
    destWasDown t' = true /\
    userInput t' = userInput t /\
    hostnameChanges t' = hostnameChanges t /\
    retriedHostnameLookups t' = retriedHostnameLookups t.
Proof.
  intros t connTime elapsed. unfold handleConnError. cbn [snd].
  destruct (destWasDown t) eqn:Hd; cbn.
  - rewrite Hd. repeat split; reflexivity.
  - rewrite calcLongestUptime_frame. cbn. repeat split; reflexivity.
Qed.

Lemma handleConnSuccess_counters :
  forall t sourceAddr r connTime elapsed,
    let t' := snd (handleConnSuccess t sourceAddr r connTime elapsed) in
    rtt t' = rtt t ++ [r] /\
    totalSuccessfulProbes t' = uint_inc (totalSuccessfulProbes t) /\
    totalUnsuccessfulProbes t' = totalUnsuccessfulProbes t /\
    ongoingSuccessfulProbes t' =
      uint_inc (if destWasDown t then 0 else ongoingSuccessfulProbes t) /\
    ongoingUnsuccessfulProbes t' =
      (if destWasDown t then 0 else ongoingUnsuccessfulProbes t) /\
    destWasDown t' = false /\
    userInput t' = userInput t /\
    hostnameChanges t' = hostnameChanges t /\
    retriedHostnameLookups t' = retriedHostnameLookups t.
Proof.
  intros t sourceAddr r connTime elapsed. unfold handleConnSuccess.
  destruct (destWasDown t) eqn:Hd.
  - destruct (recover_fields t connTime)
      as (_ & _ & Hd1 & Hos & Hou & _ & _ & Hui & Hrtt & Hts & Htu & _ & _ & Hhc & Hr).
    destruct (recover t connTime) as [evs t1]. cbn [snd] in *.
    destruct (IsZero (startOfUptime t1)); cbn;
      rewrite Hd1, Hos, Hou, Hui, Hrtt, Hts, Htu, Hhc, Hr; repeat split; reflexivity.
  - destruct (IsZero (startOfUptime t)); cbn; rewrite Hd; repeat split; reflexivity.
Qed.

Lemma printStats_frame :
  forall t now,
    let t' := snd (printStats t now) in
    t' = set_rttResults (calcMinAvgMaxRttTime (rtt t))
           (set_longestDowntime (longestDowntime t')
              (set_longestUptime (longestUptime t') t)).
Proof.
  intros t now. unfold printStats. cbn [snd].
  destruct (destWasDown t).
  - rewrite calcLongestDowntime_frame. destruct t; reflexivity.
  - rewrite calcLongestUptime_frame. destruct t; reflexivity.
Qed.

Lemma printStats_counters :
  forall t now,
    let t' := snd (printStats t now) in
    rtt t' = rtt t /\
    totalSuccessfulProbes t' = totalSuccessfulProbes t /\
    totalUnsuccessfulProbes t' = totalUnsuccessfulProbes t /\
    ongoingSuccessfulProbes t' = ongoingSuccessfulProbes t /\
    ongoingUnsuccessfulProbes t' = ongoingUnsuccessfulProbes t /\
    destWasDown t' = destWasDown t /\
    userInput t' = userInput t /\
    hostnameChanges t' = hostnameChanges t /\
    retriedHostnameLookups t' = retriedHostnameLookups t.
Proof.
  intros t now t'. subst t'. rewrite (printStats_frame t now).
  repeat split; reflexivity.
Qed.

(** ** The clock and the longest records *)

Lemma tie_break_update_grows :
  forall start d old new,
    tie_break_update start d old new ->
    0 <= start -> 0 <= d ->
    0 <= lt_duration old ->
    (lt_end old = 0 -> lt_duration old = 0) ->
    0 <= lt_duration new /\
    (lt_end new = 0 -> lt_duration new = 0) /\
    lt_duration old <= lt_duration new /\
    replaced_when_ge start d old new.
Proof.
  intros start d old new (Hskip & Hfirst & Hge & Hlt) Hs Hd Hdur Hend.
  destruct (Z.eq_dec start 0) as [Hs0|Hs0].
  { rewrite (Hskip (or_introl Hs0)).
    repeat split; try assumption; try lia; intros; try reflexivity; contradiction. }
  destruct (Z.eq_dec d 0) as [Hd0|Hd0].
  { rewrite (Hskip (or_intror Hd0)).
    repeat split; try assumption; try lia; intros; try reflexivity; contradiction. }
  assert (Hnew : forall x, x = newLongestTime start d ->
            0 <= lt_duration x /\ (lt_end x = 0 -> lt_duration x = 0) /\
            lt_duration x = d).
  { intros x ->. unfold newLongestTime, time_Add. cbn. repeat split; lia. }
  destruct (Z.eq_dec (lt_end old) 0) as [He|He].
  { pose proof (Hfirst Hs0 Hd0 He) as Hn. destruct (Hnew _ Hn) as (H1 & H2 & H3).
    rewrite (Hend He) in *.
    split; [exact H1|]. split; [exact H2|]. split; [lia|].
    split; [intros [?|?]; contradiction|]. split; [intros; exact Hn|].
    intros; lia. }
  destruct (Z_le_gt_dec (lt_duration old) d) as [Hle|Hgt].
  - pose proof (Hge Hs0 Hd0 He Hle) as Hn. destruct (Hnew _ Hn) as (H1 & H2 & H3).
    split; [exact H1|]. split; [exact H2|]. split; [lia|].
    split; [intros [?|?]; contradiction|]. split; [intros; exact Hn|].
    intros; lia.
  - assert (Hn : new = old) by (apply Hlt; try assumption; lia). rewrite Hn.
    split; [exact Hdur|]. split; [exact Hend|]. split; [lia|].
    split; [intros; reflexivity|]. split; [intros; lia|]. intros; reflexivity.
Qed.

Lemma tracker_ok_later :
  forall now now' t, tracker_ok now t -> now <= now' -> tracker_ok now' t.
Proof.
  intros now now' t [] Hle. constructor; try assumption; lia.
Qed.

Lemma new_tcping_tracker_ok :
  forall ui start when isIP now, 0 < now -> tracker_ok now (new_tcping ui start when isIP).
Proof.
  intros. constructor; cbn; unfold time_zero; try lia; reflexivity.
Qed.

Lemma handleConnError_times :
  forall t connTime elapsed,
    let t' := snd (handleConnError t connTime elapsed) in
    (destWasDown t = true ->
     startOfUptime t' = startOfUptime t /\ startOfDowntime t' = startOfDowntime t /\
     longestUptime t' = longestUptime t /\ longestDowntime t' = longestDowntime t) /\
    (destWasDown t = false ->
     startOfUptime t' = time_zero /\ startOfDowntime t' = connTime /\
     longestDowntime t' = longestDowntime t /\
     tie_break_update (startOfUptime t) (time_Sub connTime (startOfUptime t))
       (longestUptime t) (longestUptime t')).
Proof.
  intros t connTime elapsed. unfold handleConnError. cbn [snd].
  split; intros Hd; rewrite Hd; cbn [negb].
  - cbn. repeat split; reflexivity.
  - rewrite calcLongestUptime_frame. cbn.
    split; [reflexivity|]. split; [reflexivity|]. split; [reflexivity|].
    exact (calcLongestUptime_rule (set_startOfDowntime connTime t)
             (time_Sub connTime (startOfUptime t))).
Qed.

Lemma handleConnSuccess_times :
  forall t sourceAddr r connTime elapsed,
    let t' := snd (handleConnSuccess t sourceAddr r connTime elapsed) in
    (destWasDown t = true ->
     startOfUptime t' = connTime /\ startOfDowntime t' = time_zero /\
     longestUptime t' = longestUptime t /\
     tie_break_update (startOfDowntime t) (time_Sub connTime (startOfDowntime t))
       (longestDowntime t) (longestDowntime t')) /\
    (destWasDown t = false ->
     startOfUptime t' = (if IsZero (startOfUptime t) then connTime else startOfUptime t) /\
     startOfDowntime t' = startOfDowntime t /\
     longestUptime t' = longestUptime t /\ longestDowntime t' = longestDowntime t).
Proof.
  intros t sourceAddr r connTime elapsed. unfold handleConnSuccess.
  split; intros Hd; rewrite Hd.
  - destruct (recover_fields t connTime) as (Hsu & Hsd & _ & _ & _ & Hld & Hlu & _).
    destruct (recover t connTime) as [evs t1]. cbn [snd] in *.
    assert (Hrule := calcLongestDowntime_rule (set_startOfUptime connTime t)
                       (time_Sub connTime (startOfDowntime t))).
    rewrite <- Hld in Hrule.
    destruct (IsZero (startOfUptime t1)); cbn; rewrite ?Hsu, ?Hsd, ?Hlu;
      (split; [reflexivity|]); (split; [reflexivity|]); (split; [reflexivity|]);
      exact Hrule.
  - destruct (IsZero (startOfUptime t)); cbn; repeat split; reflexivity.
Qed.

Lemma printStats_times :
  forall t now,
    let t' := snd (printStats t now) in
    startOfUptime t' = startOfUptime t /\ startOfDowntime t' = startOfDowntime t /\
    (destWasDown t = true ->
     longestUptime t' = longestUptime t /\
     tie_break_update (startOfDowntime t) (time_Sub now (startOfDowntime t))
       (longestDowntime t) (longestDowntime t')) /\
    (destWasDown t = false ->
     longestDowntime t' = longestDowntime t /\
     tie_break_update (startOfUptime t) (time_Sub now (startOfUptime t))
       (longestUptime t) (longestUptime t')).
Proof.
  intros t now t'.
  assert (Hf := printStats_frame t now). cbv zeta in Hf. fold t' in Hf.
  split; [rewrite Hf; reflexivity|]. split; [rewrite Hf; reflexivity|].
  subst t'. clear Hf. unfold printStats. cbn [snd].
  split; intros Hd; rewrite Hd.
  - rewrite calcLongestDowntime_frame.
    split; [reflexivity|]. apply calcLongestDowntime_rule.
  - rewrite calcLongestUptime_frame.
    split; [reflexivity|]. apply calcLongestUptime_rule.
Qed.

Section EngineFacts.

Variable ParseAddr : string -> option Addr.

Lemma recordResolved_counters :
  forall t a now,
    let t' := recordResolved t a now in
    rtt t' = rtt t /\
    totalSuccessfulProbes t' = totalSuccessfulProbes t /\
    totalUnsuccessfulProbes t' = totalUnsuccessfulProbes t /\
    ongoingSuccessfulProbes t' = ongoingSuccessfulProbes t /\
    ongoingUnsuccessfulProbes t' = 0 /\
    destWasDown t' = destWasDown t /\
    userInput t' = set_ip a (userInput t) /\
    retriedHostnameLookups t' = uint_inc (retriedHostnameLookups t) /\
    startOfUptime t' = startOfUptime t /\
    startOfDowntime t' = startOfDowntime t /\
    longestUptime t' = longestUptime t /\
    longestDowntime t' = longestDowntime t.
Proof.
  intros t a now. unfold recordResolved. cbn.
  destruct (Nat.eqb (List.length (hostnameChanges t)) 0); [cbn; repeat split; reflexivity|].
  destruct (nth_error _ _) as [lastChange|]; [|cbn; repeat split; reflexivity].
  destruct (negb _); cbn; repeat split; reflexivity.
Qed.

(** The shape of a step that does not end the process. *)
Lemma step_Done_cases :
  forall t i evs t',
    step ParseAddr t i = (evs, Done t') ->
    (exists reply now, i = InRetry reply now /\
       shouldRetryResolve (userInput t) = true /\
       retryHostnameLookupAfter (userInput t) <= ongoingUnsuccessfulProbes t /\
       exists a, t' = recordResolved t a now) \/
    (exists reply now, i = InRetry reply now /\ t' = t) \/
    (exists connStart connDuration, i = InProbe DialError connStart connDuration /\
       t' = snd (handleConnError t connStart
                   (maxDuration connDuration (intervalBetweenProbes (userInput t))))) \/
    (exists localAddr connStart connDuration,
       i = InProbe (DialOk localAddr) connStart connDuration /\
       t' = snd (handleConnSuccess t localAddr (nanoToMillisecond connDuration) connStart
                   (maxDuration connDuration (intervalBetweenProbes (userInput t))))) \/
    (exists now, i = InEnter now /\ t' = snd (printStats t now)).
Proof.
  intros t i evs t' H. destruct i as [reply now|dial connStart connDuration|now]; cbn in H.
  - destruct (shouldRetryResolve (userInput t)) eqn:Hs.
    + unfold retryResolveHostname in H.
      destruct (Z.leb_spec (retryHostnameLookupAfter (userInput t))
                  (ongoingUnsuccessfulProbes t)) as [Hle|Hlt].
      * destruct (resolveHostname ParseAddr t reply) as [evs0 [a|c|]];
          try discriminate H.
        injection H as _ <-. left. exists reply, now. repeat split; try assumption.
        exists a. reflexivity.
      * injection H as _ <-. right. left. exists reply, now. split; reflexivity.
    + injection H as _ <-. right. left. exists reply, now. split; reflexivity.
  - destruct dial as [|localAddr]; unfold tcpProbe in H.
    + destruct (handleConnError _ _ _) as [evs0 t0] eqn:He. injection H as _ <-.
      right. right. left. exists connStart, connDuration. rewrite He. split; reflexivity.
    + destruct (handleConnSuccess _ _ _ _ _) as [evs0 t0] eqn:He. injection H as _ <-.
      right. right. right. left. exists localAddr, connStart, connDuration.
      rewrite He. split; reflexivity.
  - injection H as _ <-.
    right. right. right. right. exists now. split; reflexivity.
Qed.

Lemma new_tcping_counters_ok :
  forall ui start when isIP, counters_ok (new_tcping ui start when isIP).
Proof.
  intros. constructor; cbn; unfold uint_modulus; try lia; reflexivity.
Qed.

Lemma uint_inc_length :
  forall (A : Type) (l : list A) (x : A),
    uint_inc (Z.of_nat (List.length l) mod uint_modulus)
    = Z.of_nat (List.length (l ++ [x])) mod uint_modulus.
Proof.
  intros A l x. unfold uint_inc, uint_add.
  rewrite length_app. cbn [List.length]. rewrite Nat2Z.inj_add.
  rewrite Z.add_mod_idemp_l by (unfold uint_modulus; lia). reflexivity.
Qed.

Lemma step_counters_ok :
  forall t i evs t',
    counters_ok t -> step ParseAddr t i = (evs, Done t') -> counters_ok t'.
Proof.
  intros t i evs t' [Hos Hou Hts Hup] H.
  destruct (step_Done_cases _ _ _ _ H)
    as [(reply & now & -> & _ & _ & a & ->)
       |[(reply & now & -> & ->)
        |[(cs & cd & -> & ->)
         |[(la & cs & cd & -> & ->)
          |(now & -> & ->)]]]].
  - destruct (recordResolved_counters t a now)
      as (Hr & Ht & _ & Ho & Hu & Hd & _).
    constructor; rewrite ?Hr, ?Ht, ?Ho, ?Hu, ?Hd; try assumption;
      unfold uint_modulus; lia.
  - constructor; assumption.
  - match goal with |- counters_ok (snd (handleConnError ?t ?c ?e)) =>
      destruct (handleConnError_counters t c e) as (Hr & Ht & _ & Ho & Hu & Hd & _) end.
    constructor; rewrite ?Hr, ?Ht, ?Ho, ?Hu, ?Hd; try assumption.
    + apply uint_inc_range.
    + discriminate.
  - match goal with |- counters_ok (snd (handleConnSuccess ?t ?s ?r ?c ?e)) =>
      destruct (handleConnSuccess_counters t s r c e)
        as (Hr & Ht & _ & Ho & Hu & Hd & _) end.
    constructor; rewrite ?Hr, ?Ht, ?Ho, ?Hu, ?Hd.
    + apply uint_inc_range.
    + destruct (destWasDown t); [unfold uint_modulus; lia|assumption].
    + rewrite Hts. apply uint_inc_length.
    + intros _. destruct (destWasDown t); [reflexivity|]. apply Hup. reflexivity.
  - destruct (printStats_counters t now) as (Hr & Ht & _ & Ho & Hu & Hd & _).
    constructor; rewrite ?Hr, ?Ht, ?Ho, ?Hu, ?Hd; assumption.
Qed.

Lemma reachable_counters_ok : forall t, reachable ParseAddr t -> counters_ok t.
Proof.
  intros t H. induction H as [ui start when isIP | t i evs t' _ IH Hstep].
  - apply new_tcping_counters_ok.
  - exact (step_counters_ok _ _ _ _ IH Hstep).
Qed.

Lemma reachable_at_reachable :
  forall now t, reachable_at ParseAddr now t -> reachable ParseAddr t.
Proof.
  intros now t H. induction H.
  - apply reach_new.
  - eapply reach_step; eassumption.
Qed.


(** ** The samples and the count of successes *)

(** C10. In every tracker that a session reaches, the number of stored RTT
    samples is [totalSuccessfulProbes] (a slice has fewer than [2^64]
    elements); [handleConnSuccess] appends exactly one sample and adds exactly
    one to [totalSuccessfulProbes], and [handleConnError] changes neither. *)
Theorem rtt_samples_counted :
  forall t,
    reachable ParseAddr t ->
    Z.of_nat (List.length (rtt t)) + 1 < uint_modulus ->
    Z.of_nat (List.length (rtt t)) = totalSuccessfulProbes t /\
    (forall sourceAddr r connTime elapsed,
       let t' := snd (handleConnSuccess t sourceAddr r connTime elapsed) in
       rtt t' = rtt t ++ [r] /\
       totalSuccessfulProbes t' = totalSuccessfulProbes t + 1 /\
       Z.of_nat (List.length (rtt t')) = totalSuccessfulProbes t') /\
    (forall connTime elapsed,
       let t' := snd (handleConnError t connTime elapsed) in
       rtt t' = rtt t /\
       totalSuccessfulProbes t' = totalSuccessfulProbes t).
Proof.
  intros t Hreach Hlen.
  destruct (reachable_counters_ok t Hreach) as [_ _ Hts _].
  assert (Heq : Z.of_nat (List.length (rtt t)) = totalSuccessfulProbes t).
  { rewrite Hts. symmetry. apply Z.mod_small. lia. }
  split; [exact Heq|]. split.
  - intros sourceAddr r connTime elapsed t'. subst t'.
    destruct (handleConnSuccess_counters t sourceAddr r connTime elapsed)
      as (Hr & Ht & _).
    rewrite Hr, Ht. rewrite uint_inc_small by lia.
    split; [reflexivity|]. split; [reflexivity|].
    rewrite length_app. cbn [List.length]. lia.
  - intros connTime elapsed t'. subst t'.
    destruct (handleConnError_counters t connTime elapsed) as (Hr & Ht & _).
    split; assumption.
Qed.

(** ** The streak counters *)

(** C9, as the code has it.  On every step of a session, as long as the
    counters have not reached the largest [uint]: a success that arrives
    while the target was down sets the state to up, the success streak to 1
    (reset to zero, then counted) and the failure streak to 0; a success
    while it was up adds one to the success streak; a failure while it was up
    sets the state to down and the failure streak to 1, and leaves the
    success streak alone; a failure while it was down adds one to the failure
    streak.  The success streak decreases only on a step from down to up; the
    failure streak decreases only on such a step or when a due retry of the
    resolution resets it to 0, which leaves the state as it was. *)
Theorem streaks_reset_on_recovery_or_retry :
  forall t i evs t',
    reachable ParseAddr t ->
    ongoingSuccessfulProbes t + 1 < uint_modulus ->
    ongoingUnsuccessfulProbes t + 1 < uint_modulus ->
    step ParseAddr t i = (evs, Done t') ->
    (forall localAddr connStart connDuration,
       i = InProbe (DialOk localAddr) connStart connDuration ->
       destWasDown t' = false /\
       (destWasDown t = true ->
        ongoingSuccessfulProbes t' = 1 /\ ongoingUnsuccessfulProbes t' = 0) /\
       (destWasDown t = false ->
        ongoingSuccessfulProbes t' = ongoingSuccessfulProbes t + 1 /\
        ongoingUnsuccessfulProbes t' = 0)) /\
    (forall connStart connDuration,
       i = InProbe DialError connStart connDuration ->
       destWasDown t' = true /\
       ongoingSuccessfulProbes t' = ongoingSuccessfulProbes t /\
       ongoingUnsuccessfulProbes t' = ongoingUnsuccessfulProbes t + 1 /\
       (destWasDown t = false -> ongoingUnsuccessfulProbes t' = 1)) /\
    (ongoingSuccessfulProbes t' < ongoingSuccessfulProbes t ->
     destWasDown t = true /\ destWasDown t' = false) /\
    (ongoingUnsuccessfulProbes t' < ongoingUnsuccessfulProbes t ->
     (destWasDown t = true /\ destWasDown t' = false) \/
     (exists reply now,
        i = InRetry reply now /\
        retryHostnameLookupAfter (userInput t) <= ongoingUnsuccessfulProbes t /\
        ongoingUnsuccessfulProbes t' = 0 /\
        destWasDown t' = destWasDown t)).
Proof.
  intros t i evs t' Hreach HS HU Hstep.
  destruct (reachable_counters_ok t Hreach) as [Hos Hou _ Hup].
  destruct (step_Done_cases _ _ _ _ Hstep)
    as [(reply & now & -> & _ & Hdue & a & ->)
       |[(reply & now & -> & ->)
        |[(cs & cd & -> & ->)
         |[(la & cs & cd & -> & ->)
          |(now & -> & ->)]]]].
  - destruct (recordResolved_counters t a now) as (_ & _ & _ & Ho & Hu & Hd & _).
    rewrite Ho, Hu, Hd.
    split; [intros; discriminate|]. split; [intros; discriminate|].
    split; [lia|]. intros _. right. exists reply, now. auto.
  - split; [intros; discriminate|]. split; [intros; discriminate|].
    split; lia.
  - match goal with |- context [snd (handleConnError ?t ?c ?e)] =>
      destruct (handleConnError_counters t c e) as (_ & _ & _ & Ho & Hu & Hd & _) end.
    rewrite Ho, Hu, Hd. rewrite uint_inc_small by lia.
    split; [intros; discriminate|].
    split; [|split; lia].
    intros _ _ _. split; [reflexivity|]. split; [reflexivity|]. split; [reflexivity|].
    intros Hd0. rewrite (Hup Hd0). reflexivity.
  - match goal with |- context [snd (handleConnSuccess ?t ?s ?r ?c ?e)] =>
      destruct (handleConnSuccess_counters t s r c e)
        as (_ & _ & _ & Ho & Hu & Hd & _) end.
    rewrite Ho, Hu, Hd.
    split; [|split; [intros; discriminate|]].
    + intros _ _ _ _. split; [reflexivity|]. split; intros Hd0; rewrite Hd0.
      * split; reflexivity.
      * cbv iota. rewrite uint_inc_small by lia.
        split; [reflexivity|]. apply Hup, Hd0.
    + destruct (destWasDown t) eqn:Hd0; cbv iota.
      * split; intros _; [split; reflexivity|left; split; reflexivity].
      * rewrite uint_inc_small by lia. split; lia.
  - destruct (printStats_counters t now) as (_ & _ & _ & Ho & Hu & Hd & _).
    rewrite Ho, Hu, Hd.
    split; [intros; discriminate|]. split; [intros; discriminate|].
    split; lia.
Qed.

(** ** The longest records over a session *)

(** What a step at [input_time i] does to the two records, and that the
    tracker stays well formed. *)
Lemma step_tracker_ok :
  forall now t i evs t',
    tracker_ok now t -> now <= input_time i ->
    step ParseAddr t i = (evs, Done t') ->
    tracker_ok (input_time i) t' /\
    lt_duration (longestUptime t) <= lt_duration (longestUptime t') /\
    lt_duration (longestDowntime t) <= lt_duration (longestDowntime t').
Proof.
  intros now t i evs t' Hok Hle Hstep.
  pose proof (tracker_ok_later _ _ _ Hok Hle) as Hok'.
  destruct Hok' as [Hnow Hul Huh Hdl Hdh Hlud Hlue Hldd Hlde].
  destruct (step_Done_cases _ _ _ _ Hstep)
    as [(reply & now1 & -> & _ & _ & a & ->)
       |[(reply & now1 & -> & ->)
        |[(cs & cd & -> & ->)
         |[(la & cs & cd & -> & ->)
          |(now1 & -> & ->)]]]]; cbn [input_time] in *.
  - destruct (recordResolved_counters t a now1)
      as (_ & _ & _ & _ & _ & _ & _ & _ & Hsu & Hsd & Hlu & Hld).
    split; [constructor; rewrite ?Hsu, ?Hsd, ?Hlu, ?Hld; assumption|].
    rewrite Hlu, Hld. lia.
  - split; [constructor; assumption|lia].
  - match goal with |- context [snd (handleConnError ?t ?c ?e)] =>
      destruct (handleConnError_times t c e) as (Hdown & Hup) end.
    destruct (destWasDown t) eqn:Hd.
    + destruct (Hdown eq_refl) as (Hsu & Hsd & Hlu & Hld).
      split; [constructor; rewrite ?Hsu, ?Hsd, ?Hlu, ?Hld; assumption|].
      rewrite Hlu, Hld. lia.
    + destruct (Hup eq_refl) as (Hsu & Hsd & Hld & Hrule).
      destruct (tie_break_update_grows _ _ _ _ Hrule Hul
                  (time_Sub_nonneg _ _ Huh) Hlud Hlue) as (H1 & H2 & H3 & _).
      split; [constructor; rewrite ?Hsu, ?Hsd, ?Hld; unfold time_zero;
              try assumption; lia|].
      rewrite Hld. lia.
  - match goal with |- context [snd (handleConnSuccess ?t ?s ?r ?c ?e)] =>
      destruct (handleConnSuccess_times t s r c e) as (Hdown & Hup) end.
    destruct (destWasDown t) eqn:Hd.
    + destruct (Hdown eq_refl) as (Hsu & Hsd & Hlu & Hrule).
      destruct (tie_break_update_grows _ _ _ _ Hrule Hdl
                  (time_Sub_nonneg _ _ Hdh) Hldd Hlde) as (H1 & H2 & H3 & _).
      split; [constructor; rewrite ?Hsu, ?Hsd, ?Hlu; unfold time_zero;
              try assumption; lia|].
      rewrite Hlu. lia.
    + destruct (Hup eq_refl) as (Hsu & Hsd & Hlu & Hld).
      split; [|rewrite Hlu, Hld; lia].
      constructor; rewrite ?Hsu, ?Hsd, ?Hlu, ?Hld; try assumption;
        destruct (IsZero (startOfUptime t)); lia.
  - destruct (printStats_times t now1) as (Hsu & Hsd & Hdown & Hup).
    destruct (destWasDown t) eqn:Hd.
    + destruct (Hdown eq_refl) as (Hlu & Hrule).
      destruct (tie_break_update_grows _ _ _ _ Hrule Hdl
                  (time_Sub_nonneg _ _ Hdh) Hldd Hlde) as (H1 & H2 & H3 & _).
      split; [constructor; rewrite ?Hsu, ?Hsd, ?Hlu; assumption|].
      rewrite Hlu. lia.
    + destruct (Hup eq_refl) as (Hld & Hrule).
      destruct (tie_break_update_grows _ _ _ _ Hrule Hul
                  (time_Sub_nonneg _ _ Huh) Hlud Hlue) as (H1 & H2 & H3 & _).
      split; [constructor; rewrite ?Hsu, ?Hsd, ?Hld; assumption|].
      rewrite Hld. lia.
Qed.

Lemma reachable_at_tracker_ok :
  forall now t, reachable_at ParseAddr now t -> tracker_ok now t.
Proof.
  intros now t H.
  induction H as [ui start when isIP now Hnow | now t i evs t' _ IH Hle Hstep].
  - apply new_tcping_tracker_ok. exact Hnow.
  - exact (proj1 (step_tracker_ok _ _ _ _ _ IH Hle Hstep)).
Qed.

(** C3. Along a session whose clock never goes back, no step lowers the
    duration stored in the longest-uptime or the longest-downtime record.
    When a failure closes an uptime interval, a success closes a downtime
    interval, or a snapshot closes the open interval provisionally, the
    record is replaced exactly when the duration of the interval is at least
    the recorded one, so that an interval of equal duration replaces the
    earlier one; an interval that was never opened or has no duration leaves
    the record as it is, and so does every other step. *)
Theorem longest_records_grow :
  forall now t i evs t',
    reachable_at ParseAddr now t ->
    now <= input_time i ->
    step ParseAddr t i = (evs, Done t') ->
    lt_duration (longestUptime t) <= lt_duration (longestUptime t') /\
    lt_duration (longestDowntime t) <= lt_duration (longestDowntime t') /\
    match i with
    | InProbe DialError connStart _ =>
      longestDowntime t' = longestDowntime t /\
      if destWasDown t then longestUptime t' = longestUptime t
      else replaced_when_ge (startOfUptime t) (time_Sub connStart (startOfUptime t))
             (longestUptime t) (longestUptime t')
    | InProbe (DialOk _) connStart _ =>
      longestUptime t' = longestUptime t /\
      if destWasDown t
      then replaced_when_ge (startOfDowntime t) (time_Sub connStart (startOfDowntime t))
             (longestDowntime t) (longestDowntime t')
      else longestDowntime t' = longestDowntime t
    | InEnter snapshotNow =>
      if destWasDown t
      then longestUptime t' = longestUptime t /\
           replaced_when_ge (startOfDowntime t) (time_Sub snapshotNow (startOfDowntime t))
             (longestDowntime t) (longestDowntime t')
      else longestDowntime t' = longestDowntime t /\
           replaced_when_ge (startOfUptime t) (time_Sub snapshotNow (startOfUptime t))
             (longestUptime t) (longestUptime t')
    | InRetry _ _ =>
      longestUptime t' = longestUptime t /\ longestDowntime t' = longestDowntime t
    end.
Proof.
  intros now t i evs t' Hreach Hle Hstep.
  pose proof (reachable_at_tracker_ok _ _ Hreach) as Hok.
  destruct (step_tracker_ok _ _ _ _ _ Hok Hle Hstep) as (_ & Hu & Hd).
  split; [exact Hu|]. split; [exact Hd|]. clear Hu Hd.
  pose proof (tracker_ok_later _ _ _ Hok Hle) as Hok'.
  destruct Hok' as [Hnow Hul Huh Hdl Hdh Hlud Hlue Hldd Hlde].
  destruct (step_Done_cases _ _ _ _ Hstep)
    as [(reply & now1 & -> & _ & _ & a & ->)
       |[(reply & now1 & -> & ->)
        |[(cs & cd & -> & ->)
         |[(la & cs & cd & -> & ->)
          |(now1 & -> & ->)]]]]; cbn [input_time] in *.
  - destruct (recordResolved_counters t a now1)
      as (_ & _ & _ & _ & _ & _ & _ & _ & _ & _ & Hlu & Hld).
    split; assumption.
  - split; reflexivity.
  - match goal with |- context [snd (handleConnError ?t ?c ?e)] =>
      destruct (handleConnError_times t c e) as (Hdown & Hup) end.
    destruct (destWasDown t) eqn:Hd.
    + destruct (Hdown eq_refl) as (_ & _ & Hlu & Hld). split; assumption.
    + destruct (Hup eq_refl) as (_ & _ & Hld & Hrule).
      split; [exact Hld|].
      apply (tie_break_update_grows _ _ _ _ Hrule Hul (time_Sub_nonneg _ _ Huh) Hlud Hlue).
  - match goal with |- context [snd (handleConnSuccess ?t ?s ?r ?c ?e)] =>
      destruct (handleConnSuccess_times t s r c e) as (Hdown & Hup) end.
    destruct (destWasDown t) eqn:Hd.
    + destruct (Hdown eq_refl) as (_ & _ & Hlu & Hrule).
      split; [exact Hlu|].
      apply (tie_break_update_grows _ _ _ _ Hrule Hdl (time_Sub_nonneg _ _ Hdh) Hldd Hlde).
    + destruct (Hup eq_refl) as (_ & _ & Hlu & Hld). split; assumption.
  - destruct (printStats_times t now1) as (_ & _ & Hdown & Hup).
    destruct (destWasDown t) eqn:Hd.
    + destruct (Hdown eq_refl) as (Hlu & Hrule).
      split; [exact Hlu|].
      apply (tie_break_update_grows _ _ _ _ Hrule Hdl (time_Sub_nonneg _ _ Hdh) Hldd Hlde).
    + destruct (Hup eq_refl) as (Hld & Hrule).
      split; [exact Hld|].
      apply (tie_break_update_grows _ _ _ _ Hrule Hul (time_Sub_nonneg _ _ Huh) Hlud Hlue).
Qed.

(** ** The resolver *)

Lemma nth_error_last :
  forall (A : Type) (init : list A) (x : A),
    nth_error (init ++ [x]) (List.length (init ++ [x]) - 1) = Some x.
Proof.
  intros A init x. rewrite length_app. cbn [List.length].
  replace (List.length init + 1 - 1)%nat with (List.length init) by lia.
  rewrite nth_error_app2 by lia. rewrite Nat.sub_diag. reflexivity.
Qed.

Lemma recordResolved_changes :
  forall t a now,
    let t' := recordResolved t a now in
    (hostnameChanges t = [] -> hostnameChanges t' = []) /\
    (forall init lastChange,
       hostnameChanges t = init ++ [lastChange] ->
       (hc_Addr lastChange <> a ->
        hostnameChanges t' = hostnameChanges t ++ [mkHostnameChange a now]) /\
       (hc_Addr lastChange = a -> hostnameChanges t' = hostnameChanges t)).
Proof.
  intros t a now. unfold recordResolved. cbn. split.
  - intros Hnil. rewrite Hnil. cbn. exact Hnil.
  - intros init lastChange Hc. rewrite Hc, nth_error_last.
    rewrite length_app. cbn [List.length].
    replace (Nat.eqb (List.length init + 1) 0) with false
      by (symmetry; apply Nat.eqb_neq; lia).
    destruct (Addr_eqb (hc_Addr lastChange) a) eqn:He; cbn [negb].
    + apply Addr_eqb_eq in He.
      split; [intros Hn; contradiction|intros _; cbn; exact Hc].
    + split; [intros _; reflexivity|].
      intros Heq. apply Addr_eqb_eq in Heq. congruence.
Qed.

(** C6. [retryResolveHostname] does nothing unless the streak of failures has
    reached the threshold.  When it has, the hostname is resolved again; if
    that ends the process, so does the retry; otherwise the resolved address
    is stored, the streak of failures is set to zero, the retry counter is
    incremented by one, and a record with the new address and the current
    time is appended to the address changes exactly when the sequence has a
    last entry and its address differs from the resolved one: the sequence
    never shrinks and grows by that one record only. *)
Theorem retryResolveHostname_when_due :
  forall t reply now,
    (ongoingUnsuccessfulProbes t < retryHostnameLookupAfter (userInput t) ->
     retryResolveHostname ParseAddr t reply now = ([], Done t)) /\
    (retryHostnameLookupAfter (userInput t) <= ongoingUnsuccessfulProbes t ->
     (forall evs code,
        resolveHostname ParseAddr t reply = (evs, Exited code) ->
        retryResolveHostname ParseAddr t reply now =
          (printRetryingToResolve (hostname (userInput t)) :: evs, Exited code)) /\
     (forall evs a,
        resolveHostname ParseAddr t reply = (evs, Done a) ->
        exists t',
          retryResolveHostname ParseAddr t reply now =
            (printRetryingToResolve (hostname (userInput t)) :: evs, Done t') /\
          ip (userInput t') = a /\
          ongoingUnsuccessfulProbes t' = 0 /\
          retriedHostnameLookups t' = uint_inc (retriedHostnameLookups t) /\
          (0 <= retriedHostnameLookups t -> retriedHostnameLookups t + 1 < uint_modulus ->
           retriedHostnameLookups t' = retriedHostnameLookups t + 1) /\
          (hostnameChanges t = [] -> hostnameChanges t' = []) /\
          (forall init lastChange,
             hostnameChanges t = init ++ [lastChange] ->
             (hc_Addr lastChange <> a ->
              hostnameChanges t' = hostnameChanges t ++ [mkHostnameChange a now]) /\
             (hc_Addr lastChange = a -> hostnameChanges t' = hostnameChanges t)))).
Proof.
  intros t reply now. unfold retryResolveHostname. split.
  - intros Hlt.
    destruct (Z.leb_spec (retryHostnameLookupAfter (userInput t))
                (ongoingUnsuccessfulProbes t)); [lia|reflexivity].
  - intros Hle.
    destruct (Z.leb_spec (retryHostnameLookupAfter (userInput t))
                (ongoingUnsuccessfulProbes t)); [|lia].
    split.
    + intros evs code ->. reflexivity.
    + intros evs a ->. exists (recordResolved t a now).
      destruct (recordResolved_counters t a now)
        as (_ & _ & _ & _ & Hou & _ & Hui & Hr & _).
      destruct (recordResolved_changes t a now) as (Hnil & Hlast).
      split; [reflexivity|]. split; [rewrite Hui; reflexivity|].
      split; [exact Hou|]. split; [exact Hr|].
      split; [intros H0 H1; rewrite Hr; apply uint_inc_small; assumption|].
      split; assumption.
Qed.

(** C7, as the code has it.  When the hostname is not a literal address and
    the lookup fails: if no probe has completed the error is printed and the
    process exits with status 1; if a probe has completed, the resolver
    returns the address it had, prints nothing about the failure, and a due
    retry goes on with that address, having printed only that it retries. *)
Theorem resolveHostname_lookup_failure :
  forall t reply,
    ParseAddr (hostname (userInput t)) = None ->
    lookup reply = None ->
    (totalSuccessfulProbes t = 0 /\ totalUnsuccessfulProbes t = 0 ->
     resolveHostname ParseAddr t reply =
       ([printError (CannotResolve (hostname (userInput t)))], Exited 1)) /\
    (totalSuccessfulProbes t <> 0 \/ totalUnsuccessfulProbes t <> 0 ->
     resolveHostname ParseAddr t reply = ([], Done (ip (userInput t))) /\
     forall now,
       retryHostnameLookupAfter (userInput t) <= ongoingUnsuccessfulProbes t ->
       exists t',
         retryResolveHostname ParseAddr t reply now =
           ([printRetryingToResolve (hostname (userInput t))], Done t') /\
         ip (userInput t') = ip (userInput t) /\
         totalSuccessfulProbes t' = totalSuccessfulProbes t /\
         totalUnsuccessfulProbes t' = totalUnsuccessfulProbes t).
Proof.
  intros t reply Hparse Hlookup.
  unfold retryResolveHostname, resolveHostname. rewrite Hparse, Hlookup. split.
  - intros [-> ->]. reflexivity.
  - intros Hsome.
    assert (Hb : negb (totalSuccessfulProbes t =? 0)
                 || negb (totalUnsuccessfulProbes t =? 0) = true).
    { destruct Hsome as [H|H]; apply Z.eqb_neq in H; rewrite H;
        [reflexivity|apply orb_true_r]. }
    rewrite Hb. split; [reflexivity|].
    intros now Hle.
    destruct (Z.leb_spec (retryHostnameLookupAfter (userInput t))
                (ongoingUnsuccessfulProbes t)); [|lia].
    exists (recordResolved t (ip (userInput t)) now).
    destruct (recordResolved_counters t (ip (userInput t)) now)
      as (_ & Hts & Htu & _ & _ & _ & Hui & _).
    split; [reflexivity|]. split; [rewrite Hui; reflexivity|]. split; assumption.
Qed.

(** ** Reaching a tracker by probes *)

Lemma reachable_probe :
  forall t dial connStart connDuration,
    reachable ParseAddr t ->
    reachable ParseAddr (snd (tcpProbe t dial connStart connDuration)).
Proof.
  intros t dial connStart connDuration H.
  apply (reach_step ParseAddr t (InProbe dial connStart connDuration)
           (fst (tcpProbe t dial connStart connDuration))); [exact H|].
  cbn [step]. destruct (tcpProbe t dial connStart connDuration). reflexivity.
Qed.

Lemma reachable_at_probe :
  forall now t dial connStart connDuration,
    reachable_at ParseAddr now t -> now <= connStart ->
    reachable_at ParseAddr connStart (snd (tcpProbe t dial connStart connDuration)).
Proof.
  intros now t dial connStart connDuration H Hle.
  apply (reach_at_step ParseAddr now t (InProbe dial connStart connDuration)
           (fst (tcpProbe t dial connStart connDuration))); [exact H|exact Hle|].
  cbn [step]. destruct (tcpProbe t dial connStart connDuration). reflexivity.
Qed.

(** ** Runs *)

Lemma run_reachable :
  forall inputs t evs t',
    reachable ParseAddr t -> run ParseAddr t inputs = (evs, Done t') ->
    reachable ParseAddr t'.
Proof.
  induction inputs as [|i rest IH]; intros t evs t' Hreach Hrun; cbn [run] in Hrun.
  - injection Hrun as _ <-. exact Hreach.
  - destruct (step ParseAddr t i) as [evs1 [t1|c|]] eqn:Hstep; try discriminate Hrun.
    destruct (run ParseAddr t1 rest) as [evs2 res] eqn:Hrest.
    injection Hrun as _ ->.
    apply (IH t1 evs2 t'); [|exact Hrest].
    exact (reach_step ParseAddr t i evs1 t1 Hreach Hstep).
Qed.

(** A turn of the loop of [main] that does not end the process leads from
    a reached tracker to a reached tracker. *)
Lemma iteration_reachable :
  forall t probeCount c evs t' probeCount',
    reachable ParseAddr t ->
    iteration ParseAddr (t, probeCount) c = (evs, Done (t', probeCount')) ->
    reachable ParseAddr t'.
Proof.
  intros t probeCount c evs t' probeCount' Hreach Hit. unfold iteration in Hit.
  destruct (run ParseAddr t (cycle_inputs c)) as [evs1 [t1|code|]] eqn:Hrun;
    try discriminate Hit.
  pose proof (run_reachable _ _ _ _ Hreach Hrun) as Hr1.
  destruct (negb (probesBeforeQuit (userInput t1) =? 0)).
  - destruct (uint_inc probeCount =? probesBeforeQuit (userInput t1)).
    + unfold shutdown in Hit. destruct (printStats _ _). discriminate Hit.
    + injection Hit as _ <- _. exact Hr1.
  - injection Hit as _ <- _. exact Hr1.
Qed.

Lemma step_counted :
  forall n t i evs t',
    counted n t -> n + 1 < uint_modulus ->
    step ParseAddr t i = (evs, Done t') -> counted (n + 1) t'.
Proof.
  intros n t i evs t' (Hs & Hu & Hn) Hlt Hstep. unfold counted.
  destruct (step_Done_cases _ _ _ _ Hstep)
    as [(reply & now & -> & _ & _ & a & ->)
       |[(reply & now & -> & ->)
        |[(cs & cd & -> & ->)
         |[(la & cs & cd & -> & ->)
          |(now & -> & ->)]]]].
  - destruct (recordResolved_counters t a now) as (_ & Hts & Htu & Ho & Hou & _).
    rewrite Hts, Htu, Ho, Hou. lia.
  - lia.
  - match goal with |- context [snd (handleConnError ?t ?c ?e)] =>
      destruct (handleConnError_counters t c e) as (_ & Hts & Htu & Ho & Hou & _) end.
    rewrite Hts, Htu, Ho, Hou. rewrite !uint_inc_small by lia. lia.
  - match goal with |- context [snd (handleConnSuccess ?t ?s ?r ?c ?e)] =>
      destruct (handleConnSuccess_counters t s r c e)
        as (_ & Hts & Htu & Ho & Hou & _) end.
    rewrite Hts, Htu, Ho, Hou.
    destruct (destWasDown t); rewrite !uint_inc_small by lia; lia.
  - destruct (printStats_counters t now) as (_ & Hts & Htu & Ho & Hou & _).
    rewrite Hts, Htu, Ho, Hou. lia.
Qed.

Lemma run_counted :
  forall inputs n t evs t',
    counted n t -> n + Z.of_nat (List.length inputs) < uint_modulus ->
    run ParseAddr t inputs = (evs, Done t') ->
    counted (n + Z.of_nat (List.length inputs)) t'.
Proof.
  induction inputs as [|i rest IH]; intros n t evs t' Hc Hlt Hrun; cbn [run] in Hrun.
  - injection Hrun as _ <-. cbn [List.length Z.of_nat]. rewrite Z.add_0_r. exact Hc.
  - destruct (step ParseAddr t i) as [evs1 [t1|c|]] eqn:Hstep; try discriminate Hrun.
    destruct (run ParseAddr t1 rest) as [evs2 res] eqn:Hrest.
    injection Hrun as _ ->.
    cbn [List.length] in *. rewrite Nat2Z.inj_succ in *.
    replace (n + Z.succ (Z.of_nat (List.length rest)))
      with (n + 1 + Z.of_nat (List.length rest)) by lia.
    apply (IH (n + 1) t1 evs2 t'); [|lia|exact Hrest].
    apply (step_counted n t i evs1 t1 Hc); [lia|exact Hstep].
Qed.

(** In a session of fewer than [2^64] inputs the totals are in range and
    their sum does not wrap around, and the streaks are at most the
    totals. *)
Lemma session_counted :
  forall ui start when isIP inputs evs t,
    run ParseAddr (new_tcping ui start when isIP) inputs = (evs, Done t) ->
    Z.of_nat (List.length inputs) < uint_modulus ->
    counted (Z.of_nat (List.length inputs)) t.
Proof.
  intros ui start when isIP inputs evs t Hrun Hlt.
  apply (run_counted inputs 0 (new_tcping ui start when isIP) evs t);
    [|lia|exact Hrun].
  unfold counted. cbn. lia.
Qed.
End EngineFacts.

(** ** The snapshot *)

Lemma calcLongestUptime_twice :
  forall t d, calcLongestUptime (calcLongestUptime t d) d = calcLongestUptime t d.
Proof.
  intros t d. unfold calcLongestUptime at 2 3.
  destruct (IsZero (startOfUptime t) || (d =? 0)) eqn:Hskip.
  { unfold calcLongestUptime. rewrite Hskip. reflexivity. }
  assert (Hnew :
    calcLongestUptime (set_longestUptime (newLongestTime (startOfUptime t) d) t) d
    = set_longestUptime (newLongestTime (startOfUptime t) d) t).
  { unfold calcLongestUptime. cbn. rewrite Hskip.
    destruct (IsZero (time_Add (startOfUptime t) d)); [reflexivity|].
    rewrite Z.leb_refl. reflexivity. }
  cbv zeta.
  destruct (IsZero (lt_end (longestUptime t))) eqn:He; [exact Hnew|].
  destruct (lt_duration (longestUptime t) <=? lt_duration (newLongestTime (startOfUptime t) d))
    eqn:Hle; [exact Hnew|].
  unfold calcLongestUptime. rewrite Hskip, He. cbv zeta. rewrite Hle. reflexivity.
Qed.

Lemma calcLongestDowntime_twice :
  forall t d, calcLongestDowntime (calcLongestDowntime t d) d = calcLongestDowntime t d.
Proof.
  intros t d. unfold calcLongestDowntime at 2 3.
  destruct (IsZero (startOfDowntime t) || (d =? 0)) eqn:Hskip.
  { unfold calcLongestDowntime. rewrite Hskip. reflexivity. }
  assert (Hnew :
    calcLongestDowntime (set_longestDowntime (newLongestTime (startOfDowntime t) d) t) d
    = set_longestDowntime (newLongestTime (startOfDowntime t) d) t).
  { unfold calcLongestDowntime. cbn. rewrite Hskip.
    destruct (IsZero (time_Add (startOfDowntime t) d)); [reflexivity|].
    rewrite Z.leb_refl. reflexivity. }
  cbv zeta.
  destruct (IsZero (lt_end (longestDowntime t))) eqn:He; [exact Hnew|].
  destruct (lt_duration (longestDowntime t)
            <=? lt_duration (newLongestTime (startOfDowntime t) d))
    eqn:Hle; [exact Hnew|].
  unfold calcLongestDowntime. rewrite Hskip, He. cbv zeta. rewrite Hle. reflexivity.
Qed.

Lemma calcLongestUptime_set_rttResults :
  forall t d r,
    calcLongestUptime (set_rttResults r t) d = set_rttResults r (calcLongestUptime t d).
Proof.
  intros t d r. unfold calcLongestUptime. cbn.
  destruct (IsZero (startOfUptime t) || (d =? 0)); [reflexivity|].
  destruct (IsZero (lt_end (longestUptime t))); [reflexivity|].
  destruct (lt_duration (longestUptime t) <=? d); reflexivity.
Qed.

Lemma calcLongestDowntime_set_rttResults :
  forall t d r,
    calcLongestDowntime (set_rttResults r t) d = set_rttResults r (calcLongestDowntime t d).
Proof.
  intros t d r. unfold calcLongestDowntime. cbn.
  destruct (IsZero (startOfDowntime t) || (d =? 0)); [reflexivity|].
  destruct (IsZero (lt_end (longestDowntime t))); [reflexivity|].
  destruct (lt_duration (longestDowntime t) <=? d); reflexivity.
Qed.

Lemma printStats_state :
  forall t now,
    snd (printStats t now)
    = set_rttResults (calcMinAvgMaxRttTime (rtt t))
        (if destWasDown t
         then calcLongestDowntime t (time_Sub now (startOfDowntime t))
         else calcLongestUptime t (time_Sub now (startOfUptime t))).
Proof.
  intros t now. unfold printStats. cbn [snd].
  destruct (destWasDown t).
  - rewrite calcLongestDowntime_frame. reflexivity.
  - rewrite calcLongestUptime_frame. reflexivity.
Qed.

Lemma printStats_twice :
  forall t now, snd (printStats (snd (printStats t now)) now) = snd (printStats t now).
Proof.
  intros t now.
  destruct (printStats_counters t now) as (Hrtt & _ & _ & _ & _ & Hd & _).
  destruct (printStats_times t now) as (Hsu & Hsd & _).
  rewrite (printStats_state (snd (printStats t now)) now).
  rewrite Hrtt, Hd, Hsu, Hsd.
  rewrite (printStats_state t now).
  destruct (destWasDown t).
  - rewrite calcLongestDowntime_set_rttResults, calcLongestDowntime_twice. reflexivity.
  - rewrite calcLongestUptime_set_rttResults, calcLongestUptime_twice. reflexivity.
Qed.

(** C8, as the code has it.  [printStats] prints one statistics event, which
    carries the tracker it leaves.  It is not pure: at a snapshot as at
    shutdown it stores the recomputed RTT summary in [rttResults] and closes
    the open interval provisionally at [now], storing it in the longest
    record of that kind by the [>=] rule; the other longest record and every
    other field stay as they were.  A second call at the same instant
    changes nothing more.  [shutdown] is the same call after the end time is
    stamped, followed by the exit with status 0. *)
Theorem printStats_effect :
  forall t now,
    let t' := snd (printStats t now) in
    fst (printStats t now) = [printStatistics t'] /\
    t' = set_rttResults (calcMinAvgMaxRttTime (rtt t))
           (set_longestDowntime (longestDowntime t')
              (set_longestUptime (longestUptime t') t)) /\
    (if destWasDown t
     then longestUptime t' = longestUptime t /\
          tie_break_update (startOfDowntime t) (time_Sub now (startOfDowntime t))
            (longestDowntime t) (longestDowntime t')
     else longestDowntime t' = longestDowntime t /\
          tie_break_update (startOfUptime t) (time_Sub now (startOfUptime t))
            (longestUptime t) (longestUptime t')) /\
    snd (printStats t' now) = t' /\
    (forall endNow,
       shutdown t endNow now = (fst (printStats (set_endTime endNow t) now), Exited 0)).
Proof.
  intros t now t'.
  split; [reflexivity|].
  split; [exact (printStats_frame t now)|].
  split.
  { destruct (printStats_times t now) as (_ & _ & Hdown & Hup).
    destruct (destWasDown t); [apply Hdown|apply Hup]; reflexivity. }
  split; [exact (printStats_twice t now)|].
  intros endNow. reflexivity.
Qed.

(** ** The sample trackers *)

Lemma sample_down_fields :
  destWasDown sample_down = true /\
  ongoingUnsuccessfulProbes sample_down = 2 /\
  totalUnsuccessfulProbes sample_down = 2 /\
  startOfDowntime sample_down = 2000 /\
  totalDowntime sample_down = 2000000000.
Proof. vm_compute. repeat split; reflexivity. Qed.

Lemma sample_up_fields :
  destWasDown sample_up = false /\
  ongoingSuccessfulProbes sample_up = 1 /\
  startOfUptime sample_up = 2000 /\
  rtt sample_up = [f32_of_Z 5] /\
  longestUptime sample_up = zero_longestTime.
Proof. vm_compute. repeat split; reflexivity. Qed.

Lemma sample_down_reachable : reachable sampleParseAddr sample_down.
Proof.
  unfold sample_down. do 2 apply reachable_probe. apply reach_new.
Defined.

Lemma sample_up_reachable_at : reachable_at sampleParseAddr 2000 sample_up.
Proof.
  unfold sample_up. apply (reachable_at_probe sampleParseAddr 1000); [|lia].
  apply reach_at_new. lia.
Defined.

(** ** The theorems on the sample trackers *)

(** A success at 2 000 003 000 ends the downtime of [sample_down]. *)
Lemma handleConnSuccess_while_down_witness :
  destWasDown sample_down = true /\
  fst (handleConnSuccess sample_down "192.0.2.7:50000" (f32_of_Z 5) 2000003000 1000000000)
  = [printTotalDownTime 2000001000;
     printProbeSuccess "192.0.2.7:50000" sample_ui 1 (f32_of_Z 5)] /\
  ongoingSuccessfulProbes
    (snd (handleConnSuccess sample_down "192.0.2.7:50000" (f32_of_Z 5)
            2000003000 1000000000)) = 1.
Proof.
  pose proof (handleConnSuccess_while_down sample_down "192.0.2.7:50000" (f32_of_Z 5)
                2000003000 1000000000 eq_refl) as H.
  cbv zeta in H. destruct H as (Hevs & _ & _ & _ & _ & _ & Hs & _).
  split; [reflexivity|]. split; [|exact Hs].
  rewrite Hevs. vm_compute. reflexivity.
Defined.

(** A failure at 3000 closes the uptime of [sample_up], which began at
    2000: the record takes the interval. *)
Lemma longest_records_grow_witness :
  longestUptime (snd (tcpProbe sample_up DialError 3000 5000))
  = mkLongestTime 2000 3000 1000.
Proof.
  pose proof (longest_records_grow sampleParseAddr 2000 sample_up
                (InProbe DialError 3000 5000)
                (fst (tcpProbe sample_up DialError 3000 5000))
                (snd (tcpProbe sample_up DialError 3000 5000))
                sample_up_reachable_at ltac:(cbn; lia) eq_refl) as H.
  cbv iota beta in H. destruct H as (_ & _ & _ & H).
  change (destWasDown sample_up) with false in H. cbv iota in H.
  destruct H as (_ & Hge & _).
  rewrite Hge; [reflexivity|vm_compute; discriminate ..].
Defined.

(** A due retry on [sample_down] that finds a new address. *)
Lemma retryResolveHostname_when_due_witness :
  exists t',
    retryResolveHostname sampleParseAddr sample_down sample_moved 2000003000
    = ([printRetryingToResolve "example.org"], Done t') /\
    ongoingUnsuccessfulProbes t' = 0 /\
    retriedHostnameLookups t' = 1 /\
    hostnameChanges t'
    = [mkHostnameChange (Addr4 3221225985) 1000;
       mkHostnameChange (Addr4 3221225986) 2000003000].
Proof.
  destruct (proj2 (retryResolveHostname_when_due sampleParseAddr sample_down
                     sample_moved 2000003000)) as (_ & Hdone).
  { vm_compute. discriminate. }
  destruct (Hdone [] (Addr4 3221225986) eq_refl)
    as (t' & Heq & _ & Hou & Hr & _ & _ & Hlast).
  exists t'. split; [exact Heq|]. split; [exact Hou|]. split; [exact Hr|].
  destruct (Hlast [] (mkHostnameChange (Addr4 3221225985) 1000) eq_refl) as (Hne & _).
  rewrite Hne; [reflexivity|]. cbn. discriminate.
Defined.

(** A failed lookup before any probe, and one after two probes. *)
Lemma resolveHostname_lookup_failure_witness :
  resolveHostname sampleParseAddr sample_tcping sample_failure
  = ([printError (CannotResolve "example.org")], Exited 1) /\
  resolveHostname sampleParseAddr sample_down sample_failure
  = ([], Done (Addr4 3221225985)).
Proof.
  split.
  - apply (proj1 (resolveHostname_lookup_failure sampleParseAddr sample_tcping
                    sample_failure eq_refl eq_refl)).
    split; reflexivity.
  - apply (proj2 (resolveHostname_lookup_failure sampleParseAddr sample_down
                    sample_failure eq_refl eq_refl)).
    right. vm_compute. discriminate.
Defined.

(** The failed lookup of a due retry leaves no trace: the events and the
    tracker are those of a lookup that finds the address already known. *)
Lemma sample_failure_unseen :
  retryResolveHostname sampleParseAddr sample_down sample_failure 2000003000
  = retryResolveHostname sampleParseAddr sample_down
      (mkDnsReply (Some [Addr4 3221225985]) 0) 2000003000.
Proof. vm_compute. reflexivity. Qed.

(** The only event of a due retry whose lookup fails is the announcement of
    the retry. *)
Lemma midsession_failure_not_reported :
  ~ midsession_failure_reported sampleParseAddr.
Proof.
  intros H.
  destruct (H sample_down sample_failure 2000003000 eq_refl eq_refl)
    as (e & Hin & Hrep).
  - right. vm_compute. discriminate.
  - vm_compute. discriminate.
  - vm_compute in Hin. destruct Hin as [<-|[]].
    destruct Hrep as [(m & Hm)|(m & Hm)]; discriminate Hm.
Qed.

(** A snapshot at 5000 stores the open uptime of [sample_up] as the longest
    one. *)
Lemma snapshot_is_not_pure : ~ snapshot_is_pure.
Proof.
  intros H. specialize (H sample_up 5000).
  apply (f_equal longestUptime) in H. vm_compute in H. discriminate H.
Qed.

(** A due retry sets the failure streak of [sample_down] from 2 to 0 and
    leaves the target down. *)
Lemma streaks_fall_at_retry : ~ streaks_fall_only_at_transitions sampleParseAddr.
Proof.
  intros H.
  apply (H sample_down (InRetry sample_failure 2000003000)
           [printRetryingToResolve "example.org"]
           (recordResolved sample_down (Addr4 3221225985) 2000003000)
           sample_down_reachable).
  - vm_compute. reflexivity.
  - right. vm_compute. reflexivity.
  - vm_compute. reflexivity.
Qed.

(** A success on [sample_down] sets the success streak to 1. *)
Lemma streaks_reset_on_recovery_or_retry_witness :
  ongoingSuccessfulProbes
    (snd (tcpProbe sample_down (DialOk "192.0.2.7:50000") 2000003000 5000000)) = 1.
Proof.
  pose proof (streaks_reset_on_recovery_or_retry sampleParseAddr sample_down
                (InProbe (DialOk "192.0.2.7:50000") 2000003000 5000000)
                (fst (tcpProbe sample_down (DialOk "192.0.2.7:50000") 2000003000 5000000))
                (snd (tcpProbe sample_down (DialOk "192.0.2.7:50000") 2000003000 5000000))
                sample_down_reachable) as H.
  destruct H as (Hok & _).
  - vm_compute. reflexivity.
  - vm_compute. reflexivity.
  - reflexivity.
  - destruct (Hok _ _ _ eq_refl) as (_ & Hdown & _).
    apply Hdown. reflexivity.
Defined.

(** One more success on [sample_up]: two samples, two successes. *)
Lemma rtt_samples_counted_witness :
  Z.of_nat (List.length (rtt sample_up)) = totalSuccessfulProbes sample_up /\
  totalSuccessfulProbes
    (snd (handleConnSuccess sample_up "192.0.2.7:50000" (f32_of_Z 5) 3000 1000000000))
  = 2.
Proof.
  assert (Hr : reachable sampleParseAddr sample_up).
  { unfold sample_up. apply reachable_probe. apply reach_new. }
  destruct (rtt_samples_counted sampleParseAddr sample_up Hr) as (Heq & Hs & _).
  - vm_compute. reflexivity.
  - split; [exact Heq|].
    destruct (Hs "192.0.2.7:50000"%string (f32_of_Z 5) 3000 1000000000)
      as (_ & Ht & _).
    rewrite Ht. reflexivity.
Defined.

(** A second success, 5 ms long, adds the interval of one second to the
    uptime of [sample_up], which becomes two seconds. *)
Lemma tcpProbe_elapsed_witness :
  minDuration
  <= totalUptime sample_up
     + Z.max 5000000 (intervalBetweenProbes (userInput sample_up))
  <= maxDurationValue /\
  totalUptime (snd (tcpProbe sample_up (DialOk "192.0.2.7:50000") 1000002000 5000000))
  = totalUptime sample_up + 1000000000 /\
  totalUptime sample_up + 1000000000 = 2000000000.
Proof.
  assert (H : minDuration
              <= totalUptime sample_up
                 + Z.max 5000000 (intervalBetweenProbes (userInput sample_up))
              <= maxDurationValue)
    by (vm_compute; split; discriminate).
  split; [exact H|]. split; [|reflexivity].
  destruct (tcpProbe_elapsed sample_up (DialOk "192.0.2.7:50000") 1000002000 5000000)
    as ((_ & _ & Hpin) & _).
  destruct (Hpin H) as (Heq & _). exact Heq.
Defined.

(** ** The order of float32 *)

(** [SFcompare] compares the sign, then the exponent, then the mantissa; on
    numbers this is a total preorder. *)

Lemma f32_leb_refl : forall x, f32_isNaN x = false -> f32_leb x x = true.
Proof.
  intros [s|s| |s m e] H; try discriminate H; unfold f32_leb, SFleb; cbn;
    destruct s; try reflexivity; rewrite Z.compare_refl, Pos.compare_cont_refl;
    reflexivity.
Qed.

Lemma f32_leb_isNaN :
  forall x y, f32_leb x y = true -> f32_isNaN x = false /\ f32_isNaN y = false.
Proof.
  intros [s|s| |s m e] [s'|s'| |s' m' e'] H; try discriminate H; split; reflexivity.
Qed.

Lemma f32_ltb_leb : forall x y, f32_ltb x y = true -> f32_leb x y = true.
Proof.
  intros x y. unfold f32_ltb, f32_leb, SFltb, SFleb.
  destruct (SFcompare x y) as [[| |]|]; intros H; try discriminate H; reflexivity.
Qed.

Lemma f32_not_ltb_leb :
  forall x y,
    f32_isNaN x = false -> f32_isNaN y = false ->
    f32_ltb x y = false -> f32_leb y x = true.
Proof.
  intros [s|s| |s m e] [s'|s'| |s' m' e'] Hx Hy;
    try discriminate Hx; try discriminate Hy;
    unfold f32_ltb, f32_leb, SFltb, SFleb; cbn;
    try (destruct s; try destruct s'; intros H; try discriminate H; reflexivity);
    try (destruct s'; intros H; try discriminate H; reflexivity).
  destruct s, s'; try (intros H; try discriminate H; reflexivity);
    compare_cases; intros H; try discriminate H; try reflexivity; subst; lia.
Qed.

Lemma f32_leb_trans :
  forall x y z, f32_leb x y = true -> f32_leb y z = true -> f32_leb x z = true.
Proof.
  intros [s|s| |s m e] [s'|s'| |s' m' e'] [s''|s''| |s'' m'' e''];
    unfold f32_leb, SFleb; cbn; intros H1 H2;
    try discriminate H1; try discriminate H2; try reflexivity;
    try (destruct s; try discriminate H1; try discriminate H2; try reflexivity;
         destruct s'; try discriminate H1; try discriminate H2; try reflexivity;
         destruct s''; try discriminate H1; try discriminate H2; reflexivity);
    try (destruct s; try discriminate H1; try discriminate H2; try reflexivity;
         destruct s''; try discriminate H1; try discriminate H2; reflexivity);
    try (destruct s'; try discriminate H1; try discriminate H2; try reflexivity;
         destruct s''; try discriminate H1; try discriminate H2; reflexivity);
    try (destruct s; try discriminate H1; try discriminate H2; try reflexivity;
         destruct s'; try discriminate H1; try discriminate H2; reflexivity).
  all: destruct s, s', s''; try discriminate H1; try discriminate H2; try reflexivity.
  all: compare_cases; try discriminate H1; try discriminate H2; try reflexivity;
    subst; lia.
Qed.

(** ** Rounding to binary32 *)

(** *** Digits *)

Lemma digits2_pos_size : forall p, digits2_pos p = Pos.size p.
Proof. induction p as [p IH|p IH|]; cbn; rewrite ?IH; reflexivity. Qed.

Lemma digits2_log2 : forall p, Zpos (digits2_pos p) = Z.log2 (Zpos p) + 1.
Proof.
  intros p. rewrite digits2_pos_size.
  destruct p as [p|p|]; cbn [Z.log2 Pos.size]; try reflexivity; lia.
Qed.

Lemma digits2_bounds :
  forall p, 2 ^ (Zpos (digits2_pos p) - 1) <= Zpos p < 2 ^ Zpos (digits2_pos p).
Proof.
  intros p. rewrite digits2_log2.
  replace (Z.log2 (Zpos p) + 1 - 1) with (Z.log2 (Zpos p)) by lia.
  apply Z.log2_spec. reflexivity.
Qed.

Lemma digits2_unique :
  forall p d, 2 ^ (d - 1) <= Zpos p < 2 ^ d -> 1 <= d -> Zpos (digits2_pos p) = d.
Proof.
  intros p d H Hd. rewrite digits2_log2.
  rewrite (Z.log2_unique (Zpos p) (d - 1)); [lia|lia|].
  replace (Z.succ (d - 1)) with d by lia. exact H.
Qed.

(** *** Shifting right *)

Lemma iter_pos_nat :
  forall (A : Type) (f : A -> A) (p : positive) (x : A),
    iter_pos f p x = Nat.iter (Pos.to_nat p) f x.
Proof.
  intros A f. induction p as [p IH|p IH|]; intros x; cbn [iter_pos].
  - rewrite !IH. rewrite Pos2Nat.inj_xI.
    rewrite <- Nat.iter_add. rewrite <- Nat.iter_succ_r.
    f_equal. lia.
  - rewrite !IH. rewrite Pos2Nat.inj_xO. rewrite <- Nat.iter_add. f_equal. lia.
  - reflexivity.
Qed.

Lemma shr_1_spec :
  forall mrs,
    0 <= shr_m mrs ->
    shr_m (shr_1 mrs) = shr_m mrs / 2 /\
    shr_r (shr_1 mrs) = Z.odd (shr_m mrs) /\
    shr_s (shr_1 mrs) = shr_r mrs || shr_s mrs.
Proof.
  intros [m r s] Hm. cbn [shr_m shr_r shr_s] in *.
  rewrite <- Z.div2_div.
  destruct m as [|[p|p|]|p]; try lia; cbn; repeat split; reflexivity.
Qed.

Lemma shr_iter_m :
  forall n mrs,
    0 <= shr_m mrs ->
    shr_m (Nat.iter n shr_1 mrs) = shr_m mrs / 2 ^ Z.of_nat n.
Proof.
  induction n as [|n IH]; intros mrs Hm.
  - cbn. rewrite Z.div_1_r. reflexivity.
  - rewrite Nat.iter_succ.
    assert (H0 : 0 <= shr_m (Nat.iter n shr_1 mrs)).
    { rewrite IH by exact Hm. apply Z.div_pos; [exact Hm|]. apply Z.pow_pos_nonneg; lia. }
    destruct (shr_1_spec _ H0) as (Hs & _). rewrite Hs, IH by exact Hm.
    rewrite Nat2Z.inj_succ, Z.pow_succ_r by lia.
    rewrite Z.div_div by (try apply Z.pow_pos_nonneg; lia).
    f_equal. lia.
Qed.

(** After [n + 1] shifts of [m], the bit [r] is the first bit shifted out
    and [s] tells whether any bit below it is set. *)
Lemma shr_iter_exact :
  forall n m,
    0 <= m ->
    let st := Nat.iter (S n) shr_1 (Build_shr_record m false false) in
    exists low,
      m = shr_m st * 2 ^ (Z.of_nat n + 1) + Z.b2z (shr_r st) * 2 ^ Z.of_nat n + low /\
      0 <= low < 2 ^ Z.of_nat n /\
      (shr_s st = true <-> 0 < low) /\
      0 <= shr_m st.
Proof.
  induction n as [|n IH]; intros m Hm st.
  - subst st. cbn [Nat.iter nat_rect].
    destruct (shr_1_spec (Build_shr_record m false false) Hm) as (H1 & H2 & H3).
    cbn [shr_m shr_r shr_s] in *. rewrite H1, H2, H3.
    exists 0. cbn [orb Z.of_nat Z.add]. change (2 ^ 0) with 1. change (2 ^ 1) with 2.
    split; [|split; [lia|split; [split; [discriminate|lia]|apply Z.div_pos; lia]]].
    rewrite (Z.div_mod m 2) at 1 by lia. rewrite Zmod_odd.
    destruct (Z.odd m); cbn [Z.b2z]; lia.
  - subst st. rewrite Nat.iter_succ.
    set (st := Nat.iter (S n) shr_1 (Build_shr_record m false false)) in *.
    destruct (IH m Hm) as (low & Heq & Hlow & Hs & H0). fold st in Heq, Hlow, Hs, H0.
    destruct (shr_1_spec st H0) as (H1 & H2 & H3). rewrite H1, H2, H3.
    exists (Z.b2z (shr_r st) * 2 ^ Z.of_nat n + low).
    assert (Hp : 0 < 2 ^ Z.of_nat n) by (apply Z.pow_pos_nonneg; lia).
    rewrite Nat2Z.inj_succ.
    replace (Z.succ (Z.of_nat n) + 1) with (Z.succ (Z.of_nat n + 1)) by lia.
    rewrite !Z.pow_succ_r by lia.
    replace (2 ^ (Z.of_nat n + 1)) with (2 * 2 ^ Z.of_nat n) in *
      by (rewrite Z.pow_add_r by lia; change (2 ^ 1) with 2; lia).
    split; [|split; [|split]].
    + rewrite Heq at 1. rewrite (Z.div_mod (shr_m st) 2) at 1 by lia. rewrite Zmod_odd.
      destruct (Z.odd (shr_m st)); cbn [Z.b2z]; lia.
    + destruct (shr_r st); cbn [Z.b2z]; lia.
    + destruct (shr_r st); cbn [Z.b2z orb].
      * split; intros _; [lia|reflexivity].
      * rewrite Hs. split; lia.
    + apply Z.div_pos; lia.
Qed.

(** *** One rounding, in the normal range *)

Lemma fexp32_normal : forall e, -125 <= e -> fexp prec32 emax32 e = e - 24.
Proof. intros e H. unfold fexp, emin, prec32, emax32. lia. Qed.

Lemma shr_record_of_loc_m : forall m l, shr_m (shr_record_of_loc m l) = m.
Proof. intros m [|[| |]]; reflexivity. Qed.

Lemma loc_of_shr_record_of_loc :
  forall m l, loc_of_shr_record (shr_record_of_loc m l) = l.
Proof. intros m [|[| |]]; reflexivity. Qed.

Lemma shr_fexp_normal :
  forall p e l d,
    Zpos (digits2_pos p) = d -> -125 <= d + e ->
    shr_fexp prec32 emax32 (Zpos p) e l
    = shr (shr_record_of_loc (Zpos p) l) e (d - 24).
Proof.
  intros p e l d Hd Hn. unfold shr_fexp. cbn [Zdigits2]. rewrite Hd.
  rewrite fexp32_normal by exact Hn. f_equal. lia.
Qed.

Lemma round_nearest_even_cases :
  forall m l, round_nearest_even m l = m \/ round_nearest_even m l = m + 1.
Proof.
  intros m [|[| |]]; cbn; try (left; reflexivity); try (right; reflexivity).
  destruct (Z.even m); [left|right]; reflexivity.
Qed.

Lemma round_nearest_even_exact : forall m, round_nearest_even m loc_Exact = m.
Proof. reflexivity. Qed.

Lemma shifted_m :
  forall mx lx k, 0 <= k -> shr_m (shifted mx lx k) = Zpos mx / 2 ^ k.
Proof.
  intros mx lx k Hk. unfold shifted. destruct k as [|p|p]; try lia.
  - rewrite shr_record_of_loc_m. change (2 ^ 0) with 1. rewrite Z.div_1_r. reflexivity.
  - rewrite iter_pos_nat, shr_iter_m by (rewrite shr_record_of_loc_m; lia).
    rewrite shr_record_of_loc_m, positive_nat_Z. reflexivity.
Qed.

Lemma shifted_m_range :
  forall mx lx d,
    Zpos (digits2_pos mx) = d -> 24 <= d ->
    2 ^ 23 <= shr_m (shifted mx lx (d - 24)) < 2 ^ 24.
Proof.
  intros mx lx d Hd H24. rewrite shifted_m by lia.
  pose proof (digits2_bounds mx) as Hb. rewrite Hd in Hb.
  assert (Hk : 0 < 2 ^ (d - 24)) by (apply Z.pow_pos_nonneg; lia).
  assert (H1 : 2 ^ (d - 1) = 2 ^ (d - 24) * 2 ^ 23).
  { rewrite <- Z.pow_add_r by lia. f_equal. lia. }
  assert (H2 : 2 ^ d = 2 ^ (d - 24) * 2 ^ 24).
  { rewrite <- Z.pow_add_r by lia. f_equal. lia. }
  split.
  - apply Z.div_le_lower_bound; [exact Hk|]. lia.
  - apply Z.div_lt_upper_bound; [exact Hk|]. lia.
Qed.

(** [binary_round_aux] on a mantissa of [d >= 24] digits, in the normal
    range: the mantissa is shifted to 24 digits and rounded; if the rounding
    carries to [2^24] the result is [2^23] with the next exponent. *)
Lemma binary_round_aux_normal :
  forall sx mx ex lx d,
    Zpos (digits2_pos mx) = d -> 24 <= d -> -125 <= d + ex -> d + ex <= 127 ->
    let st := shifted mx lx (d - 24) in
    let m1 := round_nearest_even (shr_m st) (loc_of_shr_record st) in
    binary_round_aux prec32 emax32 sx (Zpos mx) ex lx
    = if m1 =? 2 ^ 24
      then S754_finite sx (Z.to_pos (2 ^ 23)) (ex + (d - 24) + 1)
      else S754_finite sx (Z.to_pos m1) (ex + (d - 24)).
Proof.
  intros sx mx ex lx d Hd H24 Hlo Hhi st m1.
  pose proof (shifted_m_range mx lx d Hd H24) as Hst. fold st in Hst.
  assert (Hm1 : 2 ^ 23 <= m1 <= 2 ^ 24).
  { subst m1. destruct (round_nearest_even_cases (shr_m st) (loc_of_shr_record st))
      as [->| ->]; lia. }
  unfold binary_round_aux.
  rewrite (shr_fexp_normal mx ex lx d Hd Hlo).
  assert (Hshr : shr (shr_record_of_loc (Zpos mx) lx) ex (d - 24)
                 = (st, ex + (d - 24))).
  { subst st. unfold shr, shifted. destruct (d - 24) as [|p|p] eqn:Hk; try lia.
    - rewrite Z.add_0_r. reflexivity.
    - reflexivity. }
  rewrite Hshr. fold m1.
  destruct m1 as [|q|q] eqn:Hq; try lia.
  destruct (Z.eqb_spec (Zpos q) (2 ^ 24)) as [He|Hne].
  - (* the rounding carried *)
    assert (Hdq : Zpos (digits2_pos q) = 25).
    { apply digits2_unique; [rewrite He; cbn; lia|lia]. }
    rewrite (shr_fexp_normal q _ loc_Exact 25 Hdq) by lia.
    injection He as ->. change (25 - 24) with 1.
    cbn [shr iter_pos shr_1 shr_record_of_loc shr_m orb].
    replace (ex + (d - 24) + 1 <=? emax32 - prec32) with true
      by (symmetry; apply Z.leb_le; unfold emax32, prec32; lia).
    reflexivity.
  - assert (Hdq : Zpos (digits2_pos q) = 24).
    { apply digits2_unique; [|lia]. change (24 - 1) with 23. lia. }
    rewrite (shr_fexp_normal q _ loc_Exact 24 Hdq) by lia.
    change (24 - 24) with 0.
    cbn [shr shr_record_of_loc shr_m].
    replace (ex + (d - 24) <=? emax32 - prec32) with true
      by (symmetry; apply Z.leb_le; unfold emax32, prec32; lia).
    reflexivity.
Qed.

Lemma binary_round_aux_bounds :
  forall sx mx ex lx d,
    Zpos (digits2_pos mx) = d -> 24 <= d -> -125 <= d + ex -> d + ex <= 127 ->
    exists m2 e2,
      binary_round_aux prec32 emax32 sx (Zpos mx) ex lx = S754_finite sx m2 e2 /\
      2 ^ 23 <= Zpos m2 < 2 ^ 24 /\
      ((e2 = ex + (d - 24) /\
        Zpos mx / 2 ^ (d - 24) <= Zpos m2 <= Zpos mx / 2 ^ (d - 24) + 1) \/
       (e2 = ex + (d - 24) + 1 /\ Zpos m2 = 2 ^ 23 /\
        Zpos mx / 2 ^ (d - 24) = 2 ^ 24 - 1)).
Proof.
  intros sx mx ex lx d Hd H24 Hlo Hhi.
  rewrite (binary_round_aux_normal sx mx ex lx d Hd H24 Hlo Hhi).
  pose proof (shifted_m_range mx lx d Hd H24) as Hst.
  rewrite <- (shifted_m mx lx (d - 24)) by lia.
  set (st := shifted mx lx (d - 24)) in *.
  set (m1 := round_nearest_even (shr_m st) (loc_of_shr_record st)).
  assert (Hm1 : m1 = shr_m st \/ m1 = shr_m st + 1)
    by apply round_nearest_even_cases.
  destruct (Z.eqb_spec m1 (2 ^ 24)) as [He|Hne].
  - exists (Z.to_pos (2 ^ 23)), (ex + (d - 24) + 1).
    split; [reflexivity|]. split; [cbn; lia|]. right.
    split; [reflexivity|]. split; [reflexivity|]. lia.
  - exists (Z.to_pos m1), (ex + (d - 24)).
    split; [reflexivity|]. rewrite Z2Pos.id by lia.
    split; [lia|]. left. split; [reflexivity|]. lia.
Qed.

(** *** The order of positive finite numbers *)

Lemma f32_leb_finite :
  forall m e m' e',
    f32_leb (S754_finite false m e) (S754_finite false m' e') = true <->
    e < e' \/ (e = e' /\ Zpos m <= Zpos m').
Proof.
  intros m e m' e'. unfold f32_leb, SFleb. cbn.
  compare_cases; split; intros H; try reflexivity; try discriminate H; lia.
Qed.

(** *** Conversion of an integer *)

Lemma pos_iter_xO : forall p k, Zpos (Pos.iter xO p k) = Zpos p * 2 ^ Zpos k.
Proof.
  intros p k.
  apply (Pos.iter_ind positive xO p (fun k a => Zpos a = Zpos p * 2 ^ Zpos k)).
  - change (2 ^ 1) with 2. lia.
  - intros q a IH. rewrite Pos2Z.inj_succ, Z.pow_succ_r by lia.
    rewrite Pos2Z.inj_xO, IH. lia.
Qed.

(** An integer of at most 24 digits is converted exactly. *)
Lemma f32_of_Z_small :
  forall p d,
    Zpos (digits2_pos p) = d -> d <= 24 ->
    exists m,
      f32_of_Z (Zpos p) = S754_finite false m (d - 24) /\
      Zpos m = Zpos p * 2 ^ (24 - d).
Proof.
  intros p d Hd Hle.
  assert (H1 : 1 <= d) by (rewrite <- Hd; lia).
  unfold f32_of_Z, binary_normalize, binary_round.
  rewrite Hd, Z.add_0_r, fexp32_normal by lia.
  pose proof (digits2_bounds p) as Hb. rewrite Hd in Hb.
  unfold shl_align. rewrite Z.sub_0_r.
  destruct (d - 24) as [|k|k] eqn:Hk; try lia.
  - (* 24 digits *)
    assert (Hd24 : d = 24) by lia. rewrite Hd24 in Hd, Hb |- *.
    rewrite (binary_round_aux_normal false p 0 loc_Exact 24 Hd) by lia.
    change (24 - 24) with 0. unfold shifted.
    rewrite loc_of_shr_record_of_loc, shr_record_of_loc_m, round_nearest_even_exact.
    replace (Zpos p =? 2 ^ 24) with false by (symmetry; apply Z.eqb_neq; lia).
    exists p. split; [reflexivity|]. change (2 ^ 0) with 1. lia.
  - (* fewer digits: the mantissa is shifted left *)
    assert (Hm : Zpos (Pos.iter xO p k) = Zpos p * 2 ^ (24 - d)).
    { rewrite pos_iter_xO. f_equal. f_equal. lia. }
    assert (Hp : 0 < 2 ^ (24 - d)) by (apply Z.pow_pos_nonneg; lia).
    assert (H23 : 2 ^ 23 = 2 ^ (d - 1) * 2 ^ (24 - d)).
    { rewrite <- Z.pow_add_r by lia. f_equal. lia. }
    assert (H24 : 2 ^ 24 = 2 ^ d * 2 ^ (24 - d)).
    { rewrite <- Z.pow_add_r by lia. f_equal. lia. }
    assert (Hr : 2 ^ 23 <= Zpos (Pos.iter xO p k) < 2 ^ 24).
    { rewrite Hm, H23, H24. split.
      - apply Z.mul_le_mono_nonneg_r; lia.
      - apply Z.mul_lt_mono_pos_r; lia. }
    assert (Hdm : Zpos (digits2_pos (Pos.iter xO p k)) = 24).
    { apply digits2_unique; [exact Hr|lia]. }
    rewrite (binary_round_aux_normal false _ (Zneg k) loc_Exact 24 Hdm) by lia.
    change (24 - 24) with 0. unfold shifted.
    rewrite loc_of_shr_record_of_loc, shr_record_of_loc_m, round_nearest_even_exact.
    replace (Zpos (Pos.iter xO p k) =? 2 ^ 24) with false
      by (symmetry; apply Z.eqb_neq; lia).
    exists (Pos.iter xO p k). rewrite Z.add_0_r. split; [reflexivity|exact Hm].
Qed.

(** A longer integer is cut to 24 digits and rounded to nearest, ties to
    even: [r] is the first digit cut off and [s] tells whether a lower one
    is set. *)
Lemma f32_of_Z_big :
  forall p d,
    Zpos (digits2_pos p) = d -> 24 < d -> d <= 127 ->
    exists M r s low,
      Zpos p = M * 2 ^ (d - 24) + Z.b2z r * 2 ^ (d - 25) + low /\
      0 <= low < 2 ^ (d - 25) /\
      (s = true <-> 0 < low) /\
      M = Zpos p / 2 ^ (d - 24) /\
      2 ^ 23 <= M < 2 ^ 24 /\
      let m1 := round_nearest_even M (loc_of_shr_record (Build_shr_record M r s)) in
      f32_of_Z (Zpos p)
      = if m1 =? 2 ^ 24
        then S754_finite false (Z.to_pos (2 ^ 23)) (d - 24 + 1)
        else S754_finite false (Z.to_pos m1) (d - 24).
Proof.
  intros p d Hd Hlt Hhi.
  unfold f32_of_Z, binary_normalize, binary_round.
  rewrite Hd, Z.add_0_r, fexp32_normal by lia.
  unfold shl_align. rewrite Z.sub_0_r.
  destruct (d - 24) as [|k|k] eqn:Hk; try lia.
  rewrite (binary_round_aux_normal false p 0 loc_Exact d Hd) by lia.
  rewrite Hk.
  pose proof (shifted_m_range p loc_Exact d Hd ltac:(lia)) as Hrange.
  pose proof (shifted_m p loc_Exact (d - 24) ltac:(lia)) as HM.
  rewrite Hk in Hrange, HM.
  unfold shifted in *. rewrite iter_pos_nat in *.
  destruct (Pos2Nat.is_succ k) as (n & Hn). rewrite Hn in *.
  change (shr_record_of_loc (Zpos p) loc_Exact)
    with (Build_shr_record (Zpos p) false false) in *.
  destruct (shr_iter_exact n (Zpos p) ltac:(lia)) as (low & Heq & Hlow & Hs & _).
  set (st := Nat.iter (S n) shr_1 (Build_shr_record (Zpos p) false false)) in *.
  assert (Hnk : Z.of_nat n + 1 = Zpos k) by lia.
  assert (Hnd : Z.of_nat n = d - 25) by lia.
  rewrite Hnk in Heq. rewrite Hnd in Heq, Hlow.
  exists (shr_m st), (shr_r st), (shr_s st), low.
  split; [exact Heq|]. split; [exact Hlow|]. split; [exact Hs|].
  split; [exact HM|]. split; [exact Hrange|].
  replace (Build_shr_record (shr_m st) (shr_r st) (shr_s st)) with st
    by (destruct st; reflexivity).
  cbv zeta. rewrite !Z.add_0_l. reflexivity.
Qed.

Lemma digits2_le_64 : forall p, Zpos p < 2 ^ 64 -> Zpos (digits2_pos p) <= 64.
Proof.
  intros p H. pose proof (digits2_bounds p) as (Hlo & _).
  assert (Hlt : 2 ^ (Zpos (digits2_pos p) - 1) < 2 ^ 64) by lia.
  apply Z.pow_lt_mono_r_iff in Hlt; lia.
Qed.

Lemma digits2_mono :
  forall p q, Zpos p <= Zpos q -> Zpos (digits2_pos p) <= Zpos (digits2_pos q).
Proof.
  intros p q H. rewrite !digits2_log2.
  apply Z.add_le_mono_r. apply Z.log2_le_mono. exact H.
Qed.

(** The conversion of a positive integer below [2^64] is a normal number
    whose exponent follows the number of digits. *)
Lemma f32_of_Z_normal :
  forall p,
    Zpos p < 2 ^ 64 ->
    exists m e,
      f32_of_Z (Zpos p) = S754_finite false m e /\
      2 ^ 23 <= Zpos m < 2 ^ 24 /\
      (e = Zpos (digits2_pos p) - 24 \/
       (e = Zpos (digits2_pos p) - 23 /\ Zpos m = 2 ^ 23)).
Proof.
  intros p Hp. pose proof (digits2_le_64 p Hp) as H64.
  remember (Zpos (digits2_pos p)) as d eqn:Hd. symmetry in Hd.
  assert (H1 : 1 <= d) by (rewrite <- Hd; lia).
  destruct (Z_le_gt_dec d 24) as [Hs|Hb].
  - destruct (f32_of_Z_small p d Hd Hs) as (m & Heq & Hm).
    exists m, (d - 24). split; [exact Heq|]. split; [|left; reflexivity].
    rewrite Hm. pose proof (digits2_bounds p) as Hb. rewrite Hd in Hb.
    assert (Hq : 0 < 2 ^ (24 - d)) by (apply Z.pow_pos_nonneg; lia).
    assert (H23 : 2 ^ 23 = 2 ^ (d - 1) * 2 ^ (24 - d)).
    { rewrite <- Z.pow_add_r by lia. f_equal. lia. }
    assert (H24 : 2 ^ 24 = 2 ^ d * 2 ^ (24 - d)).
    { rewrite <- Z.pow_add_r by lia. f_equal. lia. }
    rewrite H23, H24. split.
    + apply Z.mul_le_mono_nonneg_r; lia.
    + apply Z.mul_lt_mono_pos_r; lia.
  - destruct (f32_of_Z_big p d Hd ltac:(lia) ltac:(lia))
      as (M & r & s & low & _ & _ & _ & _ & HM & Heq).
    cbv zeta in Heq.
    set (m1 := round_nearest_even M (loc_of_shr_record (Build_shr_record M r s))) in *.
    assert (Hm1 : m1 = M \/ m1 = M + 1) by apply round_nearest_even_cases.
    destruct (Z.eqb_spec m1 (2 ^ 24)) as [He|Hne].
    + exists (Z.to_pos (2 ^ 23)), (d - 24 + 1). split; [exact Heq|].
      split; [cbn; lia|]. right. split; [lia|reflexivity].
    + exists (Z.to_pos m1), (d - 24). split; [exact Heq|].
      rewrite Z2Pos.id by lia. split; [lia|left; reflexivity].
Qed.

Lemma round_nearest_even_mono :
  forall M H rf sf lowf rt st lowt,
    0 <= lowf < H -> 0 <= lowt < H ->
    (sf = true <-> 0 < lowf) -> (st = true <-> 0 < lowt) ->
    Z.b2z rf * H + lowf <= Z.b2z rt * H + lowt ->
    round_nearest_even M (loc_of_shr_record (Build_shr_record M rf sf))
    <= round_nearest_even M (loc_of_shr_record (Build_shr_record M rt st)).
Proof.
  intros M H rf sf lowf rt st lowt Hf Ht Hsf Hst Hle.
  assert (Hf' : (sf = true /\ 0 < lowf) \/ (sf = false /\ lowf = 0)).
  { destruct sf; [left; split; [reflexivity|apply Hsf; reflexivity]|].
    right. split; [reflexivity|]. destruct (Z.eq_dec lowf 0) as [|Hn]; [assumption|].
    assert (Hc : false = true) by (apply Hsf; lia). discriminate Hc. }
  assert (Ht' : (st = true /\ 0 < lowt) \/ (st = false /\ lowt = 0)).
  { destruct st; [left; split; [reflexivity|apply Hst; reflexivity]|].
    right. split; [reflexivity|]. destruct (Z.eq_dec lowt 0) as [|Hn]; [assumption|].
    assert (Hc : false = true) by (apply Hst; lia). discriminate Hc. }
  clear Hsf Hst.
  destruct Hf' as [(-> & Hlf)|(-> & Hlf)], Ht' as [(-> & Hlt)|(-> & Hlt)];
    destruct rf, rt; cbn [Z.b2z loc_of_shr_record round_nearest_even] in *;
    destruct (Z.even M); lia.
Qed.

(** The conversion is monotone. *)
Lemma f32_of_Z_mono :
  forall pf pt mf ef mt et,
    Zpos pf <= Zpos pt -> Zpos pt < 2 ^ 64 ->
    f32_of_Z (Zpos pf) = S754_finite false mf ef ->
    f32_of_Z (Zpos pt) = S754_finite false mt et ->
    ef < et \/ (ef = et /\ Zpos mf <= Zpos mt).
Proof.
  intros pf pt mf ef mt et Hle Hhi Hf Ht.
  pose proof (digits2_mono pf pt Hle) as Hd.
  pose proof (digits2_le_64 pt Hhi) as H64.
  remember (Zpos (digits2_pos pf)) as df eqn:Hdf.
  remember (Zpos (digits2_pos pt)) as dt eqn:Hdt.
  symmetry in Hdf, Hdt.
  assert (H1 : 1 <= df) by (rewrite <- Hdf; lia).
  destruct (Z_lt_le_dec df dt) as [Hlt|Hge].
  - (* fewer digits *)
    destruct (f32_of_Z_normal pf ltac:(lia)) as (m & e & Hf' & Hm & He).
    destruct (f32_of_Z_normal pt Hhi) as (m' & e' & Ht' & Hm' & He').
    rewrite Hf in Hf'. rewrite Ht in Ht'.
    injection Hf' as <- <-. injection Ht' as <- <-.
    rewrite Hdf in He. rewrite Hdt in He'. lia.
  - assert (Heq : df = dt) by lia. clear Hge Hd.
    destruct (Z_le_gt_dec df 24) as [Hs|Hb].
    + destruct (f32_of_Z_small pf df Hdf Hs) as (m & Hf' & Hm).
      destruct (f32_of_Z_small pt dt Hdt ltac:(lia)) as (m' & Ht' & Hm').
      rewrite Hf in Hf'. rewrite Ht in Ht'.
      injection Hf' as -> ->. injection Ht' as -> ->.
      right. split; [lia|]. rewrite Hm, Hm', Heq.
      apply Z.mul_le_mono_nonneg_r; [|exact Hle].
      apply Z.pow_nonneg. lia.
    + destruct (f32_of_Z_big pf df Hdf ltac:(lia) ltac:(lia))
        as (Mf & rf & sf & lowf & Hpf & Hlowf & Hsf & HMf & HMfr & Hf').
      destruct (f32_of_Z_big pt dt Hdt ltac:(lia) ltac:(lia))
        as (Mt & rt & st & lowt & Hpt & Hlowt & Hst & HMt & HMtr & Ht').
      cbv zeta in Hf', Ht'. rewrite <- Heq in *.
      set (m1f := round_nearest_even Mf (loc_of_shr_record (Build_shr_record Mf rf sf))) in *.
      set (m1t := round_nearest_even Mt (loc_of_shr_record (Build_shr_record Mt rt st))) in *.
      assert (Hcf : m1f = Mf \/ m1f = Mf + 1) by apply round_nearest_even_cases.
      assert (Hct : m1t = Mt \/ m1t = Mt + 1) by apply round_nearest_even_cases.
      assert (HM : Mf <= Mt).
      { rewrite HMf, HMt. apply Z.div_le_mono; [|exact Hle].
        apply Z.pow_pos_nonneg; lia. }
      assert (Hm1 : m1f <= m1t).
      { destruct (Z.eq_dec Mf Mt) as [HeqM|HneM]; [|lia].
        subst m1f m1t. rewrite HeqM in *.
        apply (round_nearest_even_mono Mt (2 ^ (df - 25)) rf sf lowf rt st lowt);
          try assumption.
        lia. }
      rewrite Hf in Hf'. rewrite Ht in Ht'.
      destruct (Z.eqb_spec m1f (2 ^ 24)) as [Hef|Hnf];
        destruct (Z.eqb_spec m1t (2 ^ 24)) as [Het|Hnt];
        injection Hf' as -> ->; injection Ht' as -> ->;
        rewrite ?Z2Pos.id by lia; cbn; lia.
Qed.

(** *** The quotient of two normal numbers *)

Lemma digits2_24 : forall m, 2 ^ 23 <= Zpos m < 2 ^ 24 -> Zpos (digits2_pos m) = 24.
Proof. intros m H. apply digits2_unique; [exact H|lia]. Qed.

(** [2^24] with an exact location is [2^23] with the next exponent. *)
Lemma round_carry_exact :
  forall e,
    -125 <= 25 + e -> 25 + e <= 127 ->
    binary_round_aux prec32 emax32 false 16777216 e loc_Exact
    = S754_finite false 8388608 (e + 1).
Proof.
  intros e Hlo Hhi.
  rewrite (binary_round_aux_normal false 16777216 e loc_Exact 25)
    by (try reflexivity; lia).
  reflexivity.
Qed.

(** [a / b <= 1] when [a <= b]. *)
Lemma f32_div_le_one :
  forall ma ea mb eb,
    2 ^ 23 <= Zpos ma < 2 ^ 24 -> 2 ^ 23 <= Zpos mb < 2 ^ 24 ->
    -100 <= ea - eb ->
    ea < eb \/ (ea = eb /\ Zpos ma <= Zpos mb) ->
    exists mq eq,
      f32_div (S754_finite false ma ea) (S754_finite false mb eb)
      = S754_finite false mq eq /\
      2 ^ 23 <= Zpos mq < 2 ^ 24 /\
      (eq < -23 \/ (eq = -23 /\ Zpos mq = 2 ^ 23)) /\
      ea - eb - 24 <= eq.
Proof.
  intros ma ea mb eb Hma Hmb HE Hle.
  unfold f32_div, SFdiv, SFdiv_core_binary. cbn [xorb Zdigits2].
  rewrite (digits2_24 ma Hma), (digits2_24 mb Hmb).
  replace (24 + ea - (24 + eb)) with (ea - eb) by lia.
  rewrite fexp32_normal by lia.
  replace (Z.min (ea - eb - 24) (ea - eb)) with (ea - eb - 24) by lia.
  replace (ea - eb - (ea - eb - 24)) with 24 by lia.
  rewrite Z.shiftl_mul_pow2 by lia.
  pose proof (Z_div_mod (Zpos ma * 2 ^ 24) (Zpos mb) ltac:(lia)) as Hdiv.
  destruct (Z.div_eucl (Zpos ma * 2 ^ 24) (Zpos mb)) as [q r].
  destruct Hdiv as (Hqr & Hr).
  assert (H24 : 2 ^ 24 = 16777216) by reflexivity.
  assert (H23 : 2 ^ 23 = 8388608) by reflexivity.
  rewrite H24, H23 in *.
  assert (Hq : 8388608 <= q < 33554432) by nia.
  destruct q as [|qp|qp]; try lia.
  destruct (Z.eq_dec (Zpos ma) (Zpos mb)) as [Heq|Hne].
  - (* equal mantissas *)
    assert (Hq1 : Zpos qp = 16777216) by nia.
    assert (Hr0 : r = 0) by nia.
    injection Hq1 as ->. subst r.
    assert (Hloc : new_location (Zpos mb) 0 = loc_Exact).
    { unfold new_location, new_location_even, new_location_odd.
      destruct (Z.even (Zpos mb)); reflexivity. }
    rewrite Hloc.
    rewrite (round_carry_exact (ea - eb - 24)) by lia.
    exists 8388608%positive, (ea - eb - 24 + 1).
    split; [reflexivity|]. split; [lia|]. split; lia.
  - set (d := Zpos (digits2_pos qp)).
    assert (Hd : d = 24 \/ d = 25).
    { destruct (Z_lt_le_dec (Zpos qp) 16777216).
      - left. apply digits2_unique; [rewrite H24; change (2 ^ (24 - 1)) with 8388608|]; lia.
      - right. apply digits2_unique; [|lia].
        change (2 ^ (25 - 1)) with 16777216. change (2 ^ 25) with 33554432. lia. }
    assert (Hd24 : d = 24 -> Zpos qp < 16777216).
    { intros H. pose proof (digits2_bounds qp) as Hb. fold d in Hb.
      rewrite H in Hb. rewrite H24 in Hb. lia. }
    destruct (binary_round_aux_bounds false qp (ea - eb - 24)
                (new_location (Zpos mb) r) d eq_refl ltac:(lia) ltac:(lia) ltac:(lia))
      as (m2 & e2 & Hres & Hm2 & Hcases).
    exists m2, e2. split; [exact Hres|]. rewrite H23, H24 in Hm2.
    split; [exact Hm2|].
    rewrite H23, H24 in Hcases.
    assert (Hsmall : ea = eb -> Zpos qp < 16777216) by (intros; nia).
    destruct Hle as [Hlt|(Hee & Hmm)].
    + destruct Hd as [Hd|Hd]; rewrite Hd in Hcases; lia.
    + destruct Hd as [Hd|Hd]; rewrite Hd in Hcases.
      * lia.
      * exfalso. pose proof (digits2_bounds qp) as Hb. fold d in Hb. rewrite Hd in Hb.
        change (2 ^ (25 - 1)) with 16777216 in Hb. specialize (Hsmall Hee). lia.
Qed.

(** *** Times one hundred *)

Lemma f32_hundred : f32_of_Z 100 = S754_finite false 13107200 (-17).
Proof. vm_compute. reflexivity. Qed.

(** [q * 100 <= 100] when [q <= 1]. *)
Lemma f32_mul_hundred :
  forall mq eq,
    2 ^ 23 <= Zpos mq < 2 ^ 24 ->
    eq < -23 \/ (eq = -23 /\ Zpos mq = 2 ^ 23) ->
    -100 <= eq ->
    exists m e,
      f32_mul (S754_finite false mq eq) (f32_of_Z 100) = S754_finite false m e /\
      (e < -17 \/ (e = -17 /\ Zpos m <= 13107200)).
Proof.
  intros mq eq Hmq Hle Hlo. rewrite f32_hundred.
  unfold f32_mul, SFmul. cbn [xorb].
  assert (H24 : 2 ^ 24 = 16777216) by reflexivity.
  assert (H23 : 2 ^ 23 = 8388608) by reflexivity.
  rewrite H23, H24 in *.
  destruct Hle as [Hlt|(-> & Hone)].
  - set (P := (mq * 13107200)%positive).
    assert (HP : Zpos P = Zpos mq * 13107200) by reflexivity.
    assert (Hd : Zpos (digits2_pos P) = 47 \/ Zpos (digits2_pos P) = 48).
    { destruct (Z_lt_le_dec (Zpos P) (2 ^ 47)) as [H47|H47].
      - left. apply digits2_unique; [|lia].
        split; [|exact H47]. change (2 ^ (47 - 1)) with 70368744177664. lia.
      - right. apply digits2_unique; [|lia].
        split; [exact H47|]. change (2 ^ 48) with 281474976710656. lia. }
    remember (Zpos (digits2_pos P)) as d eqn:HdP. symmetry in HdP.
    destruct (binary_round_aux_bounds false P (eq + -17) loc_Exact d HdP
                ltac:(lia) ltac:(lia) ltac:(lia))
      as (m2 & e2 & Hres & Hm2 & Hcases).
    exists m2, e2. split; [exact Hres|].
    rewrite H23, H24 in Hm2, Hcases.
    destruct Hd as [Hd|Hd]; rewrite Hd in Hcases.
    + lia.
    + change (48 - 24) with 24 in Hcases. rewrite H24 in Hcases.
      assert (HM : Zpos P / 16777216 < 13107200).
      { apply Z.div_lt_upper_bound; lia. }
      lia.
  - injection Hone as ->.
    exists 13107200%positive, (-17). split; [vm_compute; reflexivity|].
    right. split; [reflexivity|]. discriminate.
Qed.

(** *** The loss percentage *)

Lemma uint_add_small :
  forall x y, 0 <= x -> 0 <= y -> x + y < uint_modulus -> uint_add x y = x + y.
Proof. intros x y Hx Hy H. unfold uint_add. apply Z.mod_small. lia. Qed.

(** [float32(f) / float32(n) * 100], for [0 < f <= n < 2^64], is a positive
    number that is at most 100. *)
Lemma loss_of_counts :
  forall f n,
    0 < f -> f <= n -> n < 2 ^ 64 ->
    exists m e,
      f32_mul (f32_div (f32_of_Z f) (f32_of_Z n)) (f32_of_Z 100)
      = S754_finite false m e /\
      (e < -17 \/ (e = -17 /\ Zpos m <= 13107200)).
Proof.
  intros f n Hf Hle Hn.
  destruct f as [|pf|pf]; try lia. destruct n as [|pn|pn]; try lia.
  destruct (f32_of_Z_normal pf ltac:(lia)) as (ma & ea & Ha & Hma & Hea).
  destruct (f32_of_Z_normal pn Hn) as (mb & eb & Hb & Hmb & Heb).
  pose proof (f32_of_Z_mono pf pn ma ea mb eb Hle Hn Ha Hb) as Hmono.
  pose proof (digits2_le_64 pf ltac:(lia)) as Hdf.
  pose proof (digits2_le_64 pn Hn) as Hdn.
  assert (H1f : 1 <= Zpos (digits2_pos pf)) by lia.
  assert (H1n : 1 <= Zpos (digits2_pos pn)) by lia.
  destruct (f32_div_le_one ma ea mb eb Hma Hmb ltac:(lia) Hmono)
    as (mq & eq & Hq & Hmq & Hq1 & Hqlo).
  rewrite Ha, Hb, Hq.
  apply f32_mul_hundred; [exact Hmq|exact Hq1|lia].
Qed.

(** C4. As long as the sum of the two totals does not wrap around, the loss
    percentage of the statistics is 0 when no probe was counted, and
    otherwise [failures / (successes + failures) * 100] computed in float32,
    which is a number between 0 and 100. *)
Theorem packetLoss_percentage :
  forall t,
    0 <= totalSuccessfulProbes t ->
    0 <= totalUnsuccessfulProbes t ->
    totalSuccessfulProbes t + totalUnsuccessfulProbes t < uint_modulus ->
    (totalSuccessfulProbes t + totalUnsuccessfulProbes t = 0 ->
     packetLoss t = f32_zero) /\
    (0 < totalSuccessfulProbes t + totalUnsuccessfulProbes t ->
     packetLoss t
     = f32_mul
         (f32_div (f32_of_Z (totalUnsuccessfulProbes t))
            (f32_of_Z (totalSuccessfulProbes t + totalUnsuccessfulProbes t)))
         (f32_of_Z 100)) /\
    f32_isNaN (packetLoss t) = false /\
    f32_leb f32_zero (packetLoss t) = true /\
    f32_leb (packetLoss t) (f32_of_Z 100) = true.
Proof.
  intros t Hs Hf Hsum. unfold packetLoss.
  rewrite (uint_add_small _ _ Hs Hf Hsum).
  set (s := totalSuccessfulProbes t) in *. set (f := totalUnsuccessfulProbes t) in *.
  destruct (Z.eq_dec f 0) as [Hf0|Hf0].
  - rewrite Hf0, Z.add_0_r.
    destruct (Z.eq_dec s 0) as [Hs0|Hs0].
    + rewrite Hs0. change (0 + 0) with 0.
      split; [intros _; vm_compute; reflexivity|].
      split; [intros H; discriminate H|].
      vm_compute. repeat split; reflexivity.
    + destruct s as [|ps|ps]; try lia.
      destruct (f32_of_Z_normal ps ltac:(unfold uint_modulus in Hsum; lia))
        as (m & e & Hc & _).
      rewrite Hc, f32_hundred.
      change (f32_of_Z 0) with (S754_zero false).
      cbn [f32_div SFdiv f32_mul SFmul xorb f32_isNaN].
      split; [intros H; discriminate H|].
      split; [intros _; reflexivity|].
      repeat split; reflexivity.
  - destruct (loss_of_counts f (s + f) ltac:(lia) ltac:(lia)
                ltac:(unfold uint_modulus in Hsum; lia)) as (m & e & Hl & Hle).
    rewrite Hl. cbn [f32_isNaN].
    split; [intros H; lia|]. split; [intros _; reflexivity|].
    split; [reflexivity|]. split; [reflexivity|].
    rewrite f32_hundred. apply f32_leb_finite. exact Hle.
Qed.

(** Two failures and no success: the loss is 100. *)
Lemma packetLoss_percentage_witness : packetLoss sample_down = f32_of_Z 100.
Proof.
  destruct (packetLoss_percentage sample_down) as (_ & Heq & _).
  - vm_compute. discriminate.
  - vm_compute. discriminate.
  - vm_compute. reflexivity.
  - rewrite Heq by (vm_compute; reflexivity). vm_compute. reflexivity.
Defined.

(** *** Numbers stay numbers *)

Lemma shr_1_nonneg : forall mrs, 0 <= shr_m mrs -> 0 <= shr_m (shr_1 mrs).
Proof.
  intros mrs H. destruct (shr_1_spec mrs H) as (-> & _).
  apply Z.div_pos; lia.
Qed.

Lemma shr_nonneg :
  forall mrs e n, 0 <= shr_m mrs -> 0 <= shr_m (fst (shr mrs e n)).
Proof.
  intros mrs e n H. unfold shr. destruct n as [|p|p]; cbn [fst]; try exact H.
  rewrite iter_pos_nat.
  apply (Nat.iter_invariant (Pos.to_nat p) shr_record shr_1
           (fun r => 0 <= shr_m r)); [exact shr_1_nonneg|exact H].
Qed.

Lemma round_nearest_even_nonneg :
  forall m l, 0 <= m -> 0 <= round_nearest_even m l.
Proof.
  intros m l H. destruct (round_nearest_even_cases m l) as [-> | ->]; lia.
Qed.

(** Rounding a non-negative mantissa never gives NaN. *)
Lemma binary_round_aux_number :
  forall sx mx ex lx,
    0 <= mx -> f32_isNaN (binary_round_aux prec32 emax32 sx mx ex lx) = false.
Proof.
  intros sx mx ex lx H. unfold binary_round_aux, shr_fexp.
  set (n1 := fexp prec32 emax32 (Zdigits2 mx + ex) - ex).
  pose proof (shr_nonneg (shr_record_of_loc mx lx) ex n1) as H1.
  rewrite shr_record_of_loc_m in H1. specialize (H1 H).
  destruct (shr (shr_record_of_loc mx lx) ex n1) as [mrs' e']. cbn [fst] in H1.
  set (m1 := round_nearest_even (shr_m mrs') (loc_of_shr_record mrs')).
  assert (Hm1 : 0 <= m1) by (apply round_nearest_even_nonneg; exact H1).
  set (n2 := fexp prec32 emax32 (Zdigits2 m1 + e') - e').
  pose proof (shr_nonneg (shr_record_of_loc m1 loc_Exact) e' n2) as H2.
  rewrite shr_record_of_loc_m in H2. specialize (H2 Hm1).
  destruct (shr (shr_record_of_loc m1 loc_Exact) e' n2) as [mrs'' e'']. cbn [fst] in H2.
  destruct (shr_m mrs'') as [|m|m]; try lia; try reflexivity.
  destruct (e'' <=? emax32 - prec32); reflexivity.
Qed.

Lemma f32_of_Z_number : forall n, f32_isNaN (f32_of_Z n) = false.
Proof.
  intros n. unfold f32_of_Z, binary_normalize, binary_round.
  destruct n as [|p|p]; [reflexivity| |];
    destruct (shl_align p 0 _) as [mz ez]; apply binary_round_aux_number; lia.
Qed.

(** The RTT of a connection is a number, whatever its duration. *)
Lemma nanoToMillisecond_number : forall nano, f32_isNaN (nanoToMillisecond nano) = false.
Proof.
  intros nano. unfold nanoToMillisecond.
  replace (f32_of_Z Millisecond) with (S754_finite false 16000000 (-4))
    by (vm_compute; reflexivity).
  pose proof (f32_of_Z_number nano) as Hn.
  destruct (f32_of_Z nano) as [s|s| |s m e]; try discriminate Hn; try reflexivity.
  unfold f32_div, SFdiv, SFdiv_core_binary.
  set (m' := match _ - _ - _ with Z0 => Zpos m | Zpos _ => Z.shiftl (Zpos m) _ | Zneg _ => 0 end).
  assert (Hm' : 0 <= m').
  { subst m'. match goal with |- 0 <= match ?x with _ => _ end => destruct x end;
      try lia. apply Z.shiftl_nonneg. lia. }
  pose proof (Z_div_mod m' (Zpos 16000000) ltac:(lia)) as Hdiv.
  destruct (Z.div_eucl m' (Zpos 16000000)) as [q r]. destruct Hdiv as (Hqr & Hr).
  apply binary_round_aux_number. nia.
Qed.

(** Every sample that a session stores is a number. *)
Lemma reachable_rtt_numbers :
  forall ParseAddr t,
    reachable ParseAddr t -> Forall (fun x => f32_isNaN x = false) (rtt t).
Proof.
  intros ParseAddr t H. induction H as [ui start when isIP | t i evs t' _ IH Hstep].
  - constructor.
  - destruct (step_Done_cases ParseAddr _ _ _ _ Hstep)
      as [(reply & now & -> & _ & _ & a & ->)
         |[(reply & now & -> & ->)
          |[(cs & cd & -> & ->)
           |[(la & cs & cd & -> & ->)
            |(now & -> & ->)]]]].
    + destruct (recordResolved_counters t a now) as (-> & _). exact IH.
    + exact IH.
    + match goal with |- context [snd (handleConnError ?t ?c ?e)] =>
        destruct (handleConnError_counters t c e) as (-> & _) end.
      exact IH.
    + match goal with |- context [snd (handleConnSuccess ?t ?s ?r ?c ?e)] =>
        destruct (handleConnSuccess_counters t s r c e) as (-> & _) end.
      apply Forall_app. split; [exact IH|].
      constructor; [apply nanoToMillisecond_number|constructor].
    + destruct (printStats_counters t now) as (-> & _). exact IH.
Qed.

(** ** The RTT summary *)

(** The loop of [calcMinAvgMaxRttTime], from any running sum and result whose
    bounds are numbers, over samples that are numbers. *)
Lemma rtt_scan_fold :
  forall l sum result,
    f32_isNaN (rtt_min result) = false ->
    f32_isNaN (rtt_max result) = false ->
    Forall (fun x => f32_isNaN x = false) l ->
    let out := fold_left rtt_scan l (sum, result) in
    fst out = fold_left f32_add l sum /\
    rtt_average (snd out) = rtt_average result /\
    rtt_hasResults (snd out) = rtt_hasResults result /\
    f32_leb (rtt_min (snd out)) (rtt_min result) = true /\
    f32_leb (rtt_max result) (rtt_max (snd out)) = true /\
    (rtt_min (snd out) = rtt_min result \/ In (rtt_min (snd out)) l) /\
    (rtt_max (snd out) = rtt_max result \/ In (rtt_max (snd out)) l) /\
    Forall (fun x => f32_leb (rtt_min (snd out)) x = true /\
                     f32_leb x (rtt_max (snd out)) = true) l.
Proof.
  induction l as [|x l IH]; intros sum result Hmin Hmax Hl.
  - cbn. repeat split; try reflexivity; try (apply f32_leb_refl; assumption);
      try (left; reflexivity).
  - inversion Hl as [|? ? Hx Hl']; subst.
    cbn [fold_left].
    pose (r1 := if f32_ltb (rtt_max result) x
                then mkRttResult (rtt_min result) x (rtt_average result)
                       (rtt_hasResults result)
                else result).
    pose (r2 := if f32_ltb x (rtt_min r1)
                then mkRttResult x (rtt_max r1) (rtt_average r1) (rtt_hasResults r1)
                else r1).
    change (rtt_scan (sum, result) x) with (f32_add sum x, r2).
    assert (H1 : rtt_min r1 = rtt_min result /\ rtt_average r1 = rtt_average result /\
                 rtt_hasResults r1 = rtt_hasResults result /\
                 f32_isNaN (rtt_max r1) = false /\
                 f32_leb (rtt_max result) (rtt_max r1) = true /\
                 f32_leb x (rtt_max r1) = true /\
                 (rtt_max r1 = rtt_max result \/ rtt_max r1 = x)).
    { subst r1. destruct (f32_ltb (rtt_max result) x) eqn:Hlt; cbn.
      - repeat split; try reflexivity; try assumption.
        + apply f32_ltb_leb. exact Hlt.
        + apply f32_leb_refl. exact Hx.
        + right. reflexivity.
      - repeat split; try reflexivity; try assumption.
        + apply f32_leb_refl. exact Hmax.
        + apply f32_not_ltb_leb; assumption.
        + left. reflexivity. }
    destruct H1 as (H1min & H1avg & H1has & H1nan & H1max & H1x & H1in).
    assert (H2 : rtt_max r2 = rtt_max r1 /\ rtt_average r2 = rtt_average r1 /\
                 rtt_hasResults r2 = rtt_hasResults r1 /\
                 f32_isNaN (rtt_min r2) = false /\
                 f32_leb (rtt_min r2) (rtt_min r1) = true /\
                 f32_leb (rtt_min r2) x = true /\
                 (rtt_min r2 = rtt_min r1 \/ rtt_min r2 = x)).
    { subst r2. destruct (f32_ltb x (rtt_min r1)) eqn:Hlt; cbn.
      - repeat split; try reflexivity; try assumption.
        + apply f32_ltb_leb. exact Hlt.
        + apply f32_leb_refl. exact Hx.
        + right. reflexivity.
      - rewrite H1min in *. repeat split; try reflexivity; try assumption.
        + apply f32_leb_refl. exact Hmin.
        + apply f32_not_ltb_leb; assumption.
        + left. reflexivity. }
    destruct H2 as (H2max & H2avg & H2has & H2nan & H2min & H2x & H2in).
    rewrite <- H2max in H1nan.
    destruct (IH (f32_add sum x) r2 H2nan H1nan Hl')
      as (Hsum & Havg & Hhas & Hlo & Hhi & Hinlo & Hinhi & Hall).
    cbv zeta. split; [exact Hsum|].
    split; [rewrite Havg, H2avg, H1avg; reflexivity|].
    split; [rewrite Hhas, H2has, H1has; reflexivity|].
    split; [apply (f32_leb_trans _ _ _ Hlo); rewrite <- H1min; exact H2min|].
    split; [apply (f32_leb_trans _ _ _ H1max); rewrite <- H2max; exact Hhi|].
    split.
    { destruct Hinlo as [Heq|Hin]; [|right; right; exact Hin].
      rewrite Heq. destruct H2in as [H|H]; rewrite H;
        [left; exact H1min|right; left; reflexivity]. }
    split.
    { destruct Hinhi as [Heq|Hin]; [|right; right; exact Hin].
      rewrite Heq, H2max. destruct H1in as [H|H]; rewrite H;
        [left; reflexivity|right; left; reflexivity]. }
    constructor; [|exact Hall]. split.
    + apply (f32_leb_trans _ _ _ Hlo). exact H2x.
    + apply (f32_leb_trans _ _ _ H1x). rewrite <- H2max. exact Hhi.
Qed.

(** C5, as the code has it.  The summary of the empty sequence is the zero
    value, without results.  Every sample that a session stores is a number
    (not NaN).  The summary of a non-empty sequence of numbers has results; its minimum is a sample and is at most every sample; its maximum
    is a sample or the initial 0 and is at least every sample and 0, so
    [min <= max]; its average is the quotient, in float32, of the running
    float32 sum by the count.  For the samples 10, 20, 30 the summary is
    exactly 10, 20, 30. *)
Theorem calcMinAvgMaxRttTime_summary :
  calcMinAvgMaxRttTime [] = zero_rttResult /\
  rtt_hasResults (calcMinAvgMaxRttTime []) = false /\
  calcMinAvgMaxRttTime [f32_of_Z 10; f32_of_Z 20; f32_of_Z 30]
  = mkRttResult (f32_of_Z 10) (f32_of_Z 30) (f32_of_Z 20) true /\
  (forall ParseAddr t,
     reachable ParseAddr t -> Forall (fun x => f32_isNaN x = false) (rtt t)) /\
  forall timeArr,
    timeArr <> [] ->
    Forall (fun x => f32_isNaN x = false) timeArr ->
    let result := calcMinAvgMaxRttTime timeArr in
    rtt_hasResults result = true /\
    f32_leb (rtt_min result) (rtt_max result) = true /\
    f32_leb f32_zero (rtt_max result) = true /\
    In (rtt_min result) timeArr /\
    (rtt_max result = f32_zero \/ In (rtt_max result) timeArr) /\
    Forall (fun x => f32_leb (rtt_min result) x = true /\
                     f32_leb x (rtt_max result) = true) timeArr /\
    rtt_average result
    = f32_div (fold_left f32_add timeArr f32_zero)
        (f32_of_Z (Z.of_nat (List.length timeArr))).
Proof.
  split; [reflexivity|]. split; [reflexivity|]. split; [vm_compute; reflexivity|].
  split; [exact reachable_rtt_numbers|].
  intros timeArr Hne Hnum result. subst result.
  destruct timeArr as [|x0 rest]; [contradiction Hne; reflexivity|].
  unfold calcMinAvgMaxRttTime.
  assert (Hx0 : f32_isNaN x0 = false) by (inversion Hnum; assumption).
  pose proof (rtt_scan_fold (x0 :: rest) f32_zero
                (mkRttResult x0 f32_zero f32_zero false) Hx0 eq_refl Hnum) as H.
  cbv zeta in H.
  destruct (fold_left rtt_scan (x0 :: rest) (f32_zero, mkRttResult x0 f32_zero f32_zero false))
    as [sum result].
  cbn [fst snd rtt_min rtt_max rtt_average rtt_hasResults] in H.
  destruct H as (Hsum & _ & _ & Hlo & Hhi & Hinlo & Hinhi & Hall).
  replace (0 <? Z.of_nat (List.length (x0 :: rest))) with true
    by (symmetry; apply Z.ltb_lt; cbn [List.length]; lia).
  cbn [rtt_min rtt_max rtt_average rtt_hasResults].
  split; [reflexivity|].
  inversion Hall as [|? ? (Hl0 & Hh0) _]; subst.
  split; [exact (f32_leb_trans _ _ _ Hl0 Hh0)|].
  split; [exact Hhi|].
  split; [destruct Hinlo as [->|Hin]; [left; reflexivity|exact Hin]|].
  split; [exact Hinhi|].
  split; [exact Hall|].
  reflexivity.
Qed.

(** Three samples of 200 003 ns: the float32 sum, divided by 3, is one unit
    in the last place below the samples. *)
Lemma sample_rtts_average_below_min : ~ rtt_summary_ordered.
Proof.
  intros H. destruct (H sample_rtts) as (Hle & _).
  - discriminate.
  - vm_compute in Hle. discriminate Hle.
Qed.

(** The summary of [sample_rtts]. *)
Lemma calcMinAvgMaxRttTime_summary_witness :
  rtt_hasResults (calcMinAvgMaxRttTime sample_rtts) = true /\
  f32_leb (rtt_min (calcMinAvgMaxRttTime sample_rtts))
          (rtt_max (calcMinAvgMaxRttTime sample_rtts)) = true.
Proof.
  destruct calcMinAvgMaxRttTime_summary as (_ & _ & _ & _ & H).
  destruct (H sample_rtts) as (Hhas & Hle & _).
  - discriminate.
  - repeat constructor.
  - split; assumption.
Defined.

(** ** The scenarios of the specification *)

Example scenario_A_totals :
  exists t,
    final_tracker (run sampleParseAddr sample_tcping scenario_A) = Some t /\
    totalSuccessfulProbes t = 3 /\ totalUnsuccessfulProbes t = 0 /\
    ongoingSuccessfulProbes t = 3 /\ packetLoss t = f32_zero.
Proof. eexists. split; [vm_compute; reflexivity|]. vm_compute. repeat split; reflexivity. Qed.

Example scenario_B_recovery :
  exists t evs,
    run sampleParseAddr sample_tcping scenario_B = (evs, Done t) /\
    nth_error evs 5 = Some (printTotalDownTime 5000000000) /\
    nth_error evs 6
    = Some (printProbeSuccess "192.0.2.7:50000" sample_ui 1 (f32_of_Z 5)) /\
    ongoingSuccessfulProbes t = 1 /\ ongoingUnsuccessfulProbes t = 0 /\
    longestDowntime t = mkLongestTime 2000 5000002000 5000000000.
Proof.
  eexists. eexists. split; [vm_compute; reflexivity|].
  vm_compute. repeat split; reflexivity.
Qed.

Example scenario_D_address_change :
  exists t,
    final_tracker (run sampleParseAddr sample_tcping scenario_D) = Some t /\
    hostnameChanges t
    = [mkHostnameChange (Addr4 3221225985) 1000;
       mkHostnameChange (Addr4 3221225986) 2000002000] /\
    retriedHostnameLookups t = 1 /\ ongoingUnsuccessfulProbes t = 0.
Proof. eexists. split; [vm_compute; reflexivity|]. vm_compute. repeat split; reflexivity. Qed.

Example scenario_E_later_interval :
  exists t,
    final_tracker (run sampleParseAddr sample_tcping scenario_E) = Some t /\
    longestUptime t = mkLongestTime 2000002000 3000002000 1000000000.
Proof. eexists. split; [vm_compute; reflexivity|]. vm_compute. reflexivity. Qed.
